(** * create_icon.py: the icon generator script, embedded and verified

    The script [create_icon.py] fills an SVG template for each configured
    size, asks [qlmanage] (and, when that leaves no output, [sips]) for a
    bitmap, collects the bitmaps in [Aranet4.iconset], and lets [iconutil]
    bundle them into [Aranet4.icns].

    The embedding follows the script line by line.
    - Python's values and builtins are in [Module Py]: [int] is [Z],
      [float] is a binary64 number (the kernel's), exceptions are values
      of [Py.exn].
    - The file system ([Module Fs]) is a tree of regular files and
      directories, addressed by paths relative to the working directory;
      the [os] calls of the script fail on it as they do on macOS.
    - The script itself is a computation in a state and exception monad
      over the file system and the trace of what it prints and spawns.
    - [qlmanage], [sips] and [iconutil] are not part of the repository:
      they are parameters ([tools]).  Each decides, from its arguments and
      the file system it sees, whether its output file appears and with
      which bytes; it touches nothing else.  [rm -rf] removes its
      target. *)

From Stdlib Require Import ZArith String Ascii List Lia.
From Stdlib Require Import Floats.PrimFloat Floats.SpecFloat Floats.FloatOps.
From Stdlib Require Import DecimalString.
From stdpp Require Import gmap strings list fin_maps.

#[local] Set Warnings "-inexact-float,-register-all".
#[local] Open Scope Z_scope.

(** ** Python values and builtins *)

Module Py.

(** The exceptions the modelled builtins can raise. *)
Inductive exn : Type :=
| FileNotFoundError
| FileExistsError
| IsADirectoryError
| NotADirectoryError
| PermissionError
| OSError_ENOTEMPTY
| OverflowError
| ValueError
| KeyError (key : string).

(** [str(n)] for an [int]. *)
Definition str (n : Z) : string := NilZero.string_of_int (Z.to_int n).

(** [float(n)] for an [int]: the nearest binary64 value (ties to even);
    [OverflowError] when the integer is beyond the range of a double. *)
Definition float_of_int (n : Z) : exn + float :=
  match binary_normalize prec emax n 0 false with
  | S754_infinity _ | S754_nan => inl OverflowError
  | sf => inr (SF2Prim sf)
  end.

(** [int(x)] for a [float]: truncation towards zero. *)
Definition int_of_float (x : float) : exn + Z :=
  match Prim2SF x with
  | S754_zero _ => inr 0
  | S754_finite neg m e =>
      let mag := if 0 <=? e then Z.shiftl (Z.pos m) e
                 else Z.shiftr (Z.pos m) (- e) in
      inr (if neg then - mag else mag)
  | S754_infinity _ => inl OverflowError
  | S754_nan => inl ValueError
  end.

(** [int(n * c)] for an [int] [n] and a [float] constant [c]. *)
Definition int_mul (n : Z) (c : float) : exn + Z :=
  match float_of_int n with
  | inl e => inl e
  | inr x => int_of_float (PrimFloat.mul x c)
  end.

(** A format string, split at its replacement fields. *)
Inductive piece : Type :=
| Text (s : string)
| Field (key : string).

Fixpoint assoc (key : string) (kw : list (string * string)) : option string :=
  match kw with
  | [] => None
  | (k, v) :: kw' => if String.eqb k key then Some v else assoc key kw'
  end.

(** [template.format] with keyword arguments [kw]. *)
Fixpoint format (template : list piece) (kw : list (string * string))
  : exn + string :=
  match template with
  | [] => inr EmptyString
  | Text s :: rest =>
      match format rest kw with
      | inl e => inl e
      | inr tail => inr (s +:+ tail)
      end
  | Field key :: rest =>
      match assoc key kw with
      | None => inl (KeyError key)
      | Some v =>
          match format rest kw with
          | inl e => inl e
          | inr tail => inr (v +:+ tail)
          end
      end
  end.

End Py.

(** ** The script's constants *)

(** The literals below write an apostrophe where the Python source has a
    double quote; [dq] puts the double quotes back. *)
Fixpoint dq (s : string) : string :=
  match s with
  | EmptyString => EmptyString
  | String c rest =>
      String (if Ascii.eqb c "'"%char then "034"%char else c) (dq rest)
  end.

Definition sizes : list (Z * string) :=
  [ (16, "icon_16x16.png");
    (32, "icon_16x16@2x.png");
    (32, "icon_32x32.png");
    (64, "icon_32x32@2x.png");
    (128, "icon_128x128.png");
    (256, "icon_128x128@2x.png");
    (256, "icon_256x256.png");
    (512, "icon_256x256@2x.png");
    (512, "icon_512x512.png");
    (1024, "icon_512x512@2x.png") ]%string.

Definition svg_template : list Py.piece :=
  [ Py.Text (dq "<?xml version='1.0' encoding='UTF-8'?>
<svg width='");
    Py.Field "size";
    Py.Text (dq "' height='");
    Py.Field "size";
    Py.Text (dq "' xmlns='http://www.w3.org/2000/svg'>
  <rect width='");
    Py.Field "size";
    Py.Text (dq "' height='");
    Py.Field "size";
    Py.Text (dq "' fill='white' rx='");
    Py.Field "radius";
    Py.Text (dq "'/>
  <text x='50%' y='50%'
        font-family='SF Pro, Helvetica, Arial, sans-serif'
        font-size='");
    Py.Field "fontsize";
    Py.Text (dq "'
        font-weight='500'
        fill='black'
        text-anchor='middle'
        dominant-baseline='central'>a</text>
</svg>") ]%string.

(** [int(size * 0.225)] and [int(size * 0.65)], lines 39 and 40. *)
Definition radius (size : Z) : Py.exn + Z := Py.int_mul size 0.225%float.
Definition fontsize (size : Z) : Py.exn + Z := Py.int_mul size 0.65%float.

(** Lines 37-41. *)
Definition svg_content (size : Z) : Py.exn + string :=
  match radius size with
  | inl e => inl e
  | inr r =>
      match fontsize size with
      | inl e => inl e
      | inr fs =>
          Py.format svg_template
            [ ("size", Py.str size); ("radius", Py.str r);
              ("fontsize", Py.str fs) ]%string
      end
  end.

(** ** Reading an attribute back from a generated document *)

Fixpoint upto_quote (s : string) : string :=
  match s with
  | EmptyString => EmptyString
  | String c rest =>
      if Ascii.eqb c "034"%char then EmptyString else String c (upto_quote rest)
  end.

Fixpoint drop_string (n : nat) (s : string) : string :=
  match n, s with
  | O, _ => s
  | S n', String _ rest => drop_string n' rest
  | S _, EmptyString => EmptyString
  end.

(** The value of the first attribute [name] of [doc], if there is one. *)
Definition attribute (name doc : string) : option string :=
  let opening := (" " +:+ name +:+ dq "='")%string in
  match String.index 0 opening doc with
  | None => None
  | Some i => Some (upto_quote (drop_string (i + String.length opening) doc))
  end.

(** ** The scale factors as the specification words them *)

(** "size times 0.225, truncated to an integer", over the rationals. *)
Definition radius_spec (size : Z) : Z := (size * 225) ÷ 1000.
(** "size times 0.65, truncated to an integer", over the rationals. *)
Definition fontsize_spec (size : Z) : Z := (size * 65) ÷ 100.


(** ** The file system *)

Module Fs.

(** A file system entry: a regular file with its bytes, or a directory
    with its entries. *)
Inductive node : Type :=
| File (data : string)
| Dir (entries : gmap string node).

(** The names between the slashes of [path]. *)
Fixpoint components (path : string) : list string :=
  match path with
  | EmptyString => [EmptyString]
  | String c rest =>
      if Ascii.eqb c "/"%char then EmptyString :: components rest
      else match components rest with
           | [] => [String c EmptyString]
           | name :: names => String c name :: names
           end
  end.

(** A relative path as the names to walk from the working directory
    (empty names and [.] are skipped; the script uses no [..]). *)
Definition resolve (path : string) : list string :=
  List.filter
    (fun name => negb (String.eqb name EmptyString) && negb (String.eqb name "."))
    (components path).

(** The entry at a path, from the directory [d]. *)
Fixpoint find (names : list string) (d : gmap string node) : option node :=
  match names with
  | [] => Some (Dir d)
  | name :: names' =>
      match d !! name with
      | None => None
      | Some (Dir sub) => find names' sub
      | Some (File data) =>
          match names' with [] => Some (File data) | _ :: _ => None end
      end
  end.

(** Walk to the directory that holds the last name of the path and change
    it there with [change]; the directories on the way are rebuilt. *)
Fixpoint at_parent (names : list string)
    (change : string -> gmap string node -> Py.exn + gmap string node)
    (d : gmap string node) : Py.exn + gmap string node :=
  match names with
  | [] => inl Py.IsADirectoryError
  | [name] => change name d
  | name :: names' =>
      match d !! name with
      | None => inl Py.FileNotFoundError
      | Some (File _) => inl Py.NotADirectoryError
      | Some (Dir sub) =>
          match at_parent names' change sub with
          | inl e => inl e
          | inr sub' => inr (<[name := Dir sub']> d)
          end
      end
  end.

(** Create or truncate a regular file. *)
Definition write (names : list string) (data : string) :=
  at_parent names (fun name d =>
    match d !! name with
    | Some (Dir _) => inl Py.IsADirectoryError
    | _ => inr (<[name := File data]> d)
    end).

(** [unlink]: regular files only ([EPERM] on a directory, as on macOS). *)
Definition remove (names : list string) :=
  at_parent names (fun name d =>
    match d !! name with
    | None => inl Py.FileNotFoundError
    | Some (Dir _) => inl Py.PermissionError
    | Some (File _) => inr (delete name d)
    end).

Definition detach (names : list string) :=
  at_parent names (fun name d => inr (delete name d)).

Definition attach (names : list string) (n : node) :=
  at_parent names (fun name d => inr (<[name := n]> d)).

(** [rename(2)]: a file may replace a file, a directory may replace an
    empty directory. *)
Definition rename (src dst : list string) (d : gmap string node)
  : Py.exn + gmap string node :=
  match find src d with
  | None => inl Py.FileNotFoundError
  | Some n =>
      let move :=
        match detach src d with
        | inl e => inl e
        | inr d' => attach dst n d'
        end in
      match n, find dst d with
      | File _, Some (Dir _) => inl Py.IsADirectoryError
      | Dir _, Some (File _) => inl Py.NotADirectoryError
      | Dir _, Some (Dir sub) =>
          if decide (size sub = 0%nat) then move else inl Py.OSError_ENOTEMPTY
      | _, _ => move
      end
  end.

(** [os.makedirs(path, exist_ok=True)]. *)
Fixpoint makedirs (names : list string) (d : gmap string node)
  : Py.exn + gmap string node :=
  match names with
  | [] => inr d
  | name :: names' =>
      match d !! name with
      | None =>
          match makedirs names' ∅ with
          | inl e => inl e
          | inr sub' => inr (<[name := Dir sub']> d)
          end
      | Some (Dir sub) =>
          match names' with
          | [] => inr d
          | _ :: _ =>
              match makedirs names' sub with
              | inl e => inl e
              | inr sub' => inr (<[name := Dir sub']> d)
              end
          end
      | Some (File _) =>
          inl (match names' with
               | [] => Py.FileExistsError
               | _ :: _ => Py.NotADirectoryError
               end)
      end
  end.

Definition exists_ (names : list string) (d : gmap string node) : bool :=
  match find names d with Some _ => true | None => false end.

End Fs.

(** ** The process: file system, console and spawned commands *)

(** The command lines the script hands to [os.system]. *)
Inductive command : Type :=
| Qlmanage (size : Z) (src : string)
| Sips (size : Z) (out src : string)
| Iconutil (src out : string)
| RmRf (target : string).

(** The text of each command line, as the f-strings build it. *)
Definition cmdline (c : command) : string :=
  match c with
  | Qlmanage size src =>
      "qlmanage -t -s " +:+ Py.str size +:+ " -o . " +:+ src
        +:+ " > /dev/null 2>&1"
  | Sips size out src =>
      "sips -s format png --resampleHeightWidth " +:+ Py.str size +:+ " "
        +:+ Py.str size +:+ " -s formatOptions best --out " +:+ out +:+ " "
        +:+ src +:+ " 2>/dev/null"
  | Iconutil src out => "iconutil -c icns " +:+ src +:+ " -o " +:+ out
  | RmRf target => "rm -rf " +:+ target
  end%string.

(** What the process does that an observer can see, in order. *)
Inductive event : Type :=
| Printed (line : string)
| Spawned (c : command).

Record world : Type := World {
  files : gmap string Fs.node;
  trace : list event
}.

(** The external programmes.  Each one either leaves its output file
    (with the bytes given) or leaves nothing; its answer may depend on its
    arguments and on the whole file system it sees. *)
Record tools : Type := Tools {
  qlmanage : Z -> string -> gmap string Fs.node -> option string;
  sips : Z -> string -> string -> gmap string Fs.node -> option string;
  iconutil : string -> string -> gmap string Fs.node -> option string
}.

(** A tool's output file appears when the tool produced one and the place
    can take it. *)
Definition tool_write (names : list string) (out : option string)
    (d : gmap string Fs.node) : gmap string Fs.node :=
  match out with
  | None => d
  | Some data =>
      match Fs.write names data d with
      | inl _ => d
      | inr d' => d'
      end
  end.

Definition rm_rf (names : list string) (d : gmap string Fs.node)
  : gmap string Fs.node :=
  match Fs.detach names d with
  | inl _ => d
  | inr d' => d'
  end.

(** The effect of a command on the file system.  [qlmanage -t -o .]
    writes [<src>.png] into the working directory. *)
Definition exec (T : tools) (c : command) (d : gmap string Fs.node)
  : gmap string Fs.node :=
  match c with
  | Qlmanage size src =>
      tool_write (Fs.resolve (src +:+ ".png")) (qlmanage T size src d) d
  | Sips size out src =>
      tool_write (Fs.resolve out) (sips T size out src d) d
  | Iconutil src out =>
      tool_write (Fs.resolve out) (iconutil T src out d) d
  | RmRf target => rm_rf (Fs.resolve target) d
  end.

(** The outcome of a computation: a value, or an uncaught exception. *)
Inductive result (A : Type) : Type :=
| Ok (a : A) (w : world)
| Raised (e : Py.exn) (w : world).
Arguments Ok {A} a w.
Arguments Raised {A} e w.

Definition M (A : Type) : Type := world -> result A.

Definition ret {A} (a : A) : M A := fun w => Ok a w.

Definition bind {A B} (m : M A) (k : A -> M B) : M B :=
  fun w =>
    match m w with
    | Ok a w' => k a w'
    | Raised e w' => Raised e w'
    end.

Declare Scope script_scope.
Delimit Scope script_scope with script.
Notation "x <- m ;; k" := (bind m (fun x => k))
  (at level 100, m at next level, right associativity) : script_scope.
Notation "m ;; k" := (bind m (fun _ => k))
  (at level 100, right associativity) : script_scope.
#[local] Open Scope script_scope.

Definition on_files (f : gmap string Fs.node -> Py.exn + gmap string Fs.node)
  : M unit :=
  fun w =>
    match f (files w) with
    | inl e => Raised e w
    | inr d => Ok tt (World d (trace w))
    end.

Definition eval {A} (v : Py.exn + A) : M A :=
  fun w => match v with inl e => Raised e w | inr a => Ok a w end.

Definition print (line : string) : M unit :=
  fun w => Ok tt (World (files w) (trace w ++ [Printed line])).

Definition os_makedirs (path : string) : M unit :=
  on_files (Fs.makedirs (Fs.resolve path)).

(** [with open(path, 'w') as f: f.write(data)]. *)
Definition write_text (path data : string) : M unit :=
  on_files (Fs.write (Fs.resolve path) data).

Definition os_path_exists (path : string) : M bool :=
  fun w => Ok (Fs.exists_ (Fs.resolve path) (files w)) w.

Definition os_rename (src dst : string) : M unit :=
  on_files (Fs.rename (Fs.resolve src) (Fs.resolve dst)).

Definition os_remove (path : string) : M unit :=
  on_files (Fs.remove (Fs.resolve path)).

(** [os.system(cmdline c)]; the exit status is thrown away. *)
Definition os_system (T : tools) (c : command) : M unit :=
  fun w => Ok tt (World (exec T c (files w)) (trace w ++ [Spawned c])).

Fixpoint for_each {A} (l : list A) (body : A -> M unit) : M unit :=
  match l with
  | [] => ret tt
  | x :: l' => body x ;; for_each l' body
  end.

(** ** The script *)

Definition iconset : string := "Aranet4.iconset".
Definition icns : string := "Aranet4.icns".

Definition svg_path (size : Z) : string :=
  ("temp_" +:+ Py.str size +:+ ".svg")%string.
Definition png_path (filename : string) : string :=
  ("Aranet4.iconset/" +:+ filename)%string.
Definition temp_png (size : Z) : string := (svg_path size +:+ ".png")%string.

Definition created (filename : string) : string :=
  ("Created " +:+ filename)%string.
Definition msg_creating : string := "Creating icon files...".
Definition msg_converting : string :=
  String "010"%char "Converting iconset to icns...".
Definition msg_success : string := "✓ Icon created successfully: Aranet4.icns".
Definition msg_failure : string := "✗ Failed to create icon".

(** The body of the loop, lines 36-64. *)
Definition process_one (T : tools) (p : Z * string) : M unit :=
  let '(size, filename) := p in
  content <- eval (svg_content size) ;;
  write_text (svg_path size) content ;;
  os_system T (Qlmanage size (svg_path size)) ;;
  found <- os_path_exists (temp_png size) ;;
  (if found : bool
   then os_rename (temp_png size) (png_path filename) ;;
        print (created filename)
   else os_system T (Sips size (png_path filename) (svg_path size))) ;;
  os_remove (svg_path size).

(** Lines 66-74. *)
Definition bundle (T : tools) : M unit :=
  print msg_converting ;;
  os_system T (Iconutil iconset icns) ;;
  found <- os_path_exists icns ;;
  if found : bool
  then print msg_success ;; os_system T (RmRf iconset)
  else print msg_failure.

(** Lines 5 and 34. *)
Definition prepare : M unit :=
  os_makedirs iconset ;;
  print msg_creating.

Definition main (T : tools) : M unit :=
  prepare ;;
  for_each sizes (process_one T) ;;
  bundle T.

(** A run of the script in the working directory [d]. *)
Definition run (T : tools) (d : gmap string Fs.node) : result unit :=
  main T (World d []).

(** The interpreter's exit status: 0 at the end of the script, 1 after an
    uncaught exception. *)
Definition exit_status {A} (r : result A) : Z :=
  match r with
  | Ok _ _ => 0
  | Raised _ _ => 1
  end.

Definition final {A} (r : result A) : world :=
  match r with
  | Ok _ w => w
  | Raised _ w => w
  end.

(** ** Observations used to state the properties *)

(** Lines 37-56 of one iteration: everything up to and including the test
    [os.path.exists(temp_png)], with the test's answer. *)
Definition attempt (T : tools) (p : Z * string) : M bool :=
  let '(size, filename) := p in
  content <- eval (svg_content size) ;;
  write_text (svg_path size) content ;;
  os_system T (Qlmanage size (svg_path size)) ;;
  os_path_exists (temp_png size).

(** The script up to line 65: the directory is made and every pair has
    been processed. *)
Definition generate (T : tools) : M unit :=
  prepare ;;
  for_each sizes (process_one T).

Definition sips_command (p : Z * string) : command :=
  Sips p.1 (png_path p.2) (svg_path p.1).

Definition is_dir (o : option Fs.node) : bool :=
  match o with
  | Some (Fs.Dir _) => true
  | _ => false
  end.

Definition is_file (o : option Fs.node) : bool :=
  match o with
  | Some (Fs.File _) => true
  | _ => false
  end.

Definition present {A} (o : option A) : bool :=
  match o with
  | Some _ => true
  | None => false
  end.

(** A working directory in which no directory sits where the script puts
    a file, and no file where it puts its directory.  From such a
    directory no call of the script raises. *)
Definition tidy (d : gmap string Fs.node) : bool :=
  match d !! iconset with
  | Some (Fs.File _) => false
  | Some (Fs.Dir sub) => forallb (fun q => negb (is_dir (sub !! q.2))) sizes
  | None => true
  end
  && forallb (fun q => negb (is_dir (d !! svg_path q.1))
                       && negb (is_dir (d !! temp_png q.1))) sizes.

(** The loop's invariant behind [tidy]: the staging directory exists and
    none of the names the script uses is taken by a directory. *)
Definition settled (d : gmap string Fs.node) : Prop :=
  (exists sub, d !! iconset = Some (Fs.Dir sub) /\
     forall q, In q sizes -> is_dir (sub !! q.2) = false) /\
  (forall q, In q sizes ->
     is_dir (d !! svg_path q.1) = false /\ is_dir (d !! temp_png q.1) = false).

(** [os.path.exists(path)] as an observation of a state. *)
Definition exists_at (path : string) (w : world) : bool :=
  Fs.exists_ (Fs.resolve path) (files w).

(** Every configured bitmap is in the staging directory. *)
Definition bitmaps_present (w : world) : bool :=
  forallb (fun q => exists_at (png_path q.2) w) sizes.

(** The bytes of the bundled artifact, when there is one. *)
Definition artifact (w : world) : option string :=
  match files w !! icns with
  | Some (Fs.File data) => Some data
  | _ => None
  end.

(** *** Sample environments *)

(** None of the programmes leaves any output (as on a machine that does
    not have them). *)
Definition no_tools : tools :=
  Tools (fun _ _ _ => None) (fun _ _ _ _ => None) (fun _ _ _ => None).

(** A bundle made of the names and bytes of the entries of a directory. *)
Definition pack (sub : gmap string Fs.node) : string :=
  String.concat ";"
    (map (fun e : string * Fs.node =>
            e.1 +:+ "=" +:+ match e.2 with Fs.File data => data | Fs.Dir _ => "/" end)
         (map_to_list sub)).

(** Programmes that read their input file and nothing else: [qlmanage]
    renders nothing, [sips] and [iconutil] work. *)
Definition sips_only : tools :=
  Tools (fun _ _ _ => None)
        (fun size _ src d =>
           match Fs.find (Fs.resolve src) d with
           | Some (Fs.File doc) => Some ("png " +:+ Py.str size +:+ " of " +:+ doc)
           | _ => None
           end)
        (fun src _ d =>
           match Fs.find (Fs.resolve src) d with
           | Some (Fs.Dir sub) => Some (pack sub)
           | _ => None
           end).

(** [qlmanage] renders every file it is given; [iconutil] works. *)
Definition all_tools : tools :=
  Tools (fun size src d =>
           match Fs.find (Fs.resolve src) d with
           | Some (Fs.File doc) => Some ("thumbnail " +:+ Py.str size +:+ " of " +:+ doc)
           | _ => None
           end)
        (sips sips_only)
        (iconutil sips_only).

(** [qlmanage] renders, [iconutil] fails. *)
Definition no_iconutil : tools :=
  Tools (qlmanage all_tools) (sips all_tools) (fun _ _ _ => None).

(** The script up to the end of the iterations for the pairs [pre]: what
    has happened when the iteration of the pair that follows [pre]
    starts. *)
Definition before (T : tools) (pre : list (Z * string)) : M unit :=
  prepare ;;
  for_each pre (process_one T).

(** The events that spawn [sips] for the pair [p]. *)
Definition is_sips_for (p : Z * string) (e : event) : bool :=
  match e with
  | Spawned (Sips size out src) =>
      Z.eqb size p.1 && String.eqb out (png_path p.2)
      && String.eqb src (svg_path p.1)
  | _ => false
  end.

Definition fallback_calls (p : Z * string) (tr : list event) : nat :=
  length (List.filter (is_sips_for p) tr).

(** An iteration's generation step succeeds when [qlmanage] left the
    thumbnail or, failing that, [sips] produced the bitmap. *)
Definition step_succeeds (T : tools) (p : Z * string) (w : world) : bool :=
  match attempt T p w with
  | Ok found w1 =>
      found || present (sips T p.1 (png_path p.2) (svg_path p.1) (files w1))
  | Raised _ _ => false
  end.

Fixpoint steps_succeed (T : tools) (l : list (Z * string)) (w : world) : bool :=
  match l with
  | [] => true
  | p :: l' =>
      step_succeeds T p w
      && match process_one T p w with
         | Ok _ w' => steps_succeed T l' w'
         | Raised _ _ => false
         end
  end.

(** Every generation step of the run from [d] succeeds. *)
Definition generation_succeeds (T : tools) (d : gmap string Fs.node) : bool :=
  match prepare (World d []) with
  | Ok _ w0 => steps_succeed T sizes w0
  | Raised _ _ => false
  end.

(** The names in the staging directory (none when there is no such
    directory). *)
Definition staged (d : gmap string Fs.node) : gset string :=
  match d !! iconset with
  | Some (Fs.Dir sub) => dom sub
  | _ => ∅
  end.

(** *** Deterministic programmes and repeated runs *)

(** Each programme is a function of its arguments and of the file or
    directory it is given to read, and of nothing else in the file
    system. *)
Definition input_determined (T : tools) : Prop :=
  (forall size src d d',
     Fs.find (Fs.resolve src) d = Fs.find (Fs.resolve src) d' ->
     qlmanage T size src d = qlmanage T size src d') /\
  (forall size out src d d',
     Fs.find (Fs.resolve src) d = Fs.find (Fs.resolve src) d' ->
     sips T size out src d = sips T size out src d') /\
  (forall src out d d',
     Fs.find (Fs.resolve src) d = Fs.find (Fs.resolve src) d' ->
     iconutil T src out d = iconutil T src out d').

(** A working directory with nothing left from an earlier run that the
    script would pick up: no staging directory, no thumbnail at any of the
    [temp_<size>.svg.png] paths (and no directory in the way of a
    temporary vector file). *)
Definition clean_start (d : gmap string Fs.node) : bool :=
  negb (present (d !! iconset))
  && forallb (fun q => negb (present (d !! temp_png q.1))
                       && negb (is_dir (d !! svg_path q.1))) sizes.

(** The bitmap that deterministic programmes make for a pair, if any:
    [qlmanage]'s thumbnail, else what [sips] writes. *)
Definition bitmap_of (T : tools) (p : Z * string) : option Fs.node :=
  match svg_content p.1 with
  | inl _ => None
  | inr doc =>
      let d : gmap string Fs.node := {[ svg_path p.1 := Fs.File doc ]} in
      match qlmanage T p.1 (svg_path p.1) d with
      | Some data => Some (Fs.File data)
      | None =>
          match sips T p.1 (png_path p.2) (svg_path p.1) d with
          | Some data => Some (Fs.File data)
          | None => None
          end
      end
  end.

Definition stage_one (T : tools) (p : Z * string) (sub : gmap string Fs.node)
  : gmap string Fs.node :=
  match bitmap_of T p with
  | Some n => <[p.2 := n]> sub
  | None => sub
  end.

(** The staging directory after the iterations for [l], from [sub]. *)
Fixpoint stage (T : tools) (l : list (Z * string)) (sub : gmap string Fs.node)
  : gmap string Fs.node :=
  match l with
  | [] => sub
  | p :: l' => stage T l' (stage_one T p sub)
  end.

(** What is at [Aranet4.icns] after [iconutil] has seen the staging
    directory [sub], when [a] was there before. *)
Definition bundled (T : tools) (a : option Fs.node) (sub : gmap string Fs.node)
  : option Fs.node :=
  match iconutil T iconset icns {[ iconset := Fs.Dir sub ]} with
  | Some data => if is_dir a then a else Some (Fs.File data)
  | None => a
  end.

(** The loop's invariant for deterministic programmes: [settled], and no
    thumbnail waiting in the working directory. *)
Definition ready (d : gmap string Fs.node) : Prop :=
  settled d /\ forall q, In q sizes -> d !! temp_png q.1 = None.

(** What the proofs need to know about the names the script builds for a
    pair: how they resolve, and that they do not collide. *)
Record pair_names (p : Z * string) : Prop := PairNames {
  names_svg : Fs.resolve (svg_path p.1) = [svg_path p.1];
  names_tmp : Fs.resolve (svg_path p.1 +:+ ".png") = [temp_png p.1];
  names_png : Fs.resolve (png_path p.2) = [iconset; p.2];
  names_content : exists doc, svg_content p.1 = inr doc;
  names_svg_tmp : forall q, In q sizes -> svg_path p.1 <> temp_png q.1;
  names_tmp_svg : forall q, In q sizes -> temp_png p.1 <> svg_path q.1
}.

(** ** Further observations *)

(** The paths the script itself names: the staging directory, the
    artifact, and the temporary files of the configured sizes. *)
Definition own_path (k : string) : bool :=
  String.eqb k iconset || String.eqb k icns
  || existsb (fun p => String.eqb k (svg_path p.1)
                       || String.eqb k (temp_png p.1)) sizes.

(** The float computation of lines 39-40 gives, for [size], the exactly
    truncated products. *)
Definition scales_exactly (size : Z) : bool :=
  match radius size, fontsize size with
  | inr r, inr f => Z.eqb r (radius_spec size) && Z.eqb f (fontsize_spec size)
  | _, _ => false
  end.

(** The events of one completed iteration, by the answer of its
    existence test. *)
Definition iteration_events (p : Z * string) (found : bool) : list event :=
  [ Spawned (Qlmanage p.1 (svg_path p.1));
    if found then Printed (created p.2) else Spawned (sips_command p) ].

(** The events of lines 66-74, by the answer of the final test. *)
Definition closing_events (found : bool) : list event :=
  [ Printed msg_converting; Spawned (Iconutil iconset icns) ]
  ++ (if found then [ Printed msg_success; Spawned (RmRf iconset) ]
      else [ Printed msg_failure ]).

(** The working directory after [n] runs of the script, one after the
    other. *)
Fixpoint rerun (T : tools) (n : nat) (d : gmap string Fs.node)
  : gmap string Fs.node :=
  match n with
  | O => d
  | S n' => files (final (run T (rerun T n' d)))
  end.

(** What was in the staging directory before the run. *)
Definition staged_before (d : gmap string Fs.node) : gmap string Fs.node :=
  match d !! iconset with
  | Some (Fs.Dir sub) => sub
  | _ => ∅
  end.

(** A file is at [temp_<size>.svg.png] when [qlmanage], given the
    document [doc], has returned: one was there before the iteration, or
    [qlmanage] produced one. *)
Definition thumbnail_there (T : tools) (p : Z * string) (doc : string)
    (w : world) : bool :=
  present (files w !! temp_png p.1)
  || present (qlmanage T p.1 (svg_path p.1)
                (<[svg_path p.1 := Fs.File doc]> (files w))).

(** The state in which [qlmanage], given the document [doc], has
    returned. *)
Definition after_qlmanage (T : tools) (p : Z * string) (doc : string)
    (w : world) : world :=
  World (exec T (Qlmanage p.1 (svg_path p.1))
           (<[svg_path p.1 := Fs.File doc]> (files w)))
        (trace w ++ [Spawned (Qlmanage p.1 (svg_path p.1))]).

(** The events of the iteration for [p] started in [w], however it
    ends. *)
Definition iteration_trace (T : tools) (p : Z * string) (w : world)
  : list event :=
  skipn (length (trace w)) (trace (final (process_one T p w))).

(** * Properties *)

(** ** The vector description *)

Example svg_16 : svg_content 16 = inr (dq
"<?xml version='1.0' encoding='UTF-8'?>
<svg width='16' height='16' xmlns='http://www.w3.org/2000/svg'>
  <rect width='16' height='16' fill='white' rx='3'/>
  <text x='50%' y='50%'
        font-family='SF Pro, Helvetica, Arial, sans-serif'
        font-size='10'
        font-weight='500'
        fill='black'
        text-anchor='middle'
        dominant-baseline='central'>a</text>
</svg>")%string.
Proof. vm_compute. reflexivity. Qed.

(** The literal [0.225] denotes the double just above 9/40, and [0.65] the
    double just above 13/20. *)
Example literal_0_225 : Prim2SF 0.225%float = S754_finite false 8106479329266893 (-55).
Proof. vm_compute. reflexivity. Qed.

Example literal_0_65 : Prim2SF 0.65%float = S754_finite false 5854679515581645 (-53).
Proof. vm_compute. reflexivity. Qed.

Example cmdline_qlmanage_16 :
  cmdline (Qlmanage 16 (svg_path 16))
  = "qlmanage -t -s 16 -o . temp_16.svg > /dev/null 2>&1"%string.
Proof. vm_compute. reflexivity. Qed.

(** C1 (as the code has it): for the entry of size 16 the generated
    document says [rx="3"] and [font-size="10"]: 16 * 0.225 = 3.6 truncates
    to 3, and 16 * 0.65 = 10.4 truncates to 10. *)
Theorem svg_16_radius_3_fontsize_10 :
  In 16 (map fst sizes) /\
  radius 16 = inr 3 /\ fontsize 16 = inr 10 /\
  exists doc, svg_content 16 = inr doc /\
    attribute "rx" doc = Some "3"%string /\
    attribute "font-size" doc = Some "10"%string.
Proof.
  split; [now left|].
  split; [vm_compute; reflexivity|].
  split; [vm_compute; reflexivity|].
  eexists. split; [apply svg_16|].
  split; vm_compute; reflexivity.
Qed.

(** C1, refuted as stated: the document for size 16 does not give corner
    radius 4 (together with font size 10). *)
Lemma svg_16_radius_is_not_4 :
  ~ (radius 16 = inr 4 /\ fontsize 16 = inr 10) /\
  ~ (exists doc, svg_content 16 = inr doc /\
       attribute "rx" doc = Some "4"%string /\
       attribute "font-size" doc = Some "10"%string).
Proof.
  split.
  - intros [H _]. vm_compute in H. discriminate H.
  - intros (doc & Hdoc & Hrx & _).
    rewrite svg_16 in Hdoc. injection Hdoc as <-.
    vm_compute in Hrx. discriminate Hrx.
Qed.

(** C8: for every configured pair the radius and the font size that go
    into the document are the size times 0.225 and times 0.65, truncated,
    and the document carries exactly these two numbers. *)
Theorem svg_scale_factors (size : Z) (filename : string) :
  In (size, filename) sizes ->
  radius size = inr (radius_spec size) /\
  fontsize size = inr (fontsize_spec size) /\
  exists doc, svg_content size = inr doc /\
    attribute "rx" doc = Some (Py.str (radius_spec size)) /\
    attribute "font-size" doc = Some (Py.str (fontsize_spec size)).
Proof.
  intros Hin. simpl in Hin.
  repeat (destruct Hin as [Hin | Hin];
          [ injection Hin as <- <-;
            split; [vm_compute; reflexivity|];
            split; [vm_compute; reflexivity|];
            eexists; split; [vm_compute; reflexivity|];
            split; vm_compute; reflexivity
          | ]).
  destruct Hin.
Qed.

Lemma svg_scale_factors_witness :
  radius 1024 = inr 230 /\ fontsize 1024 = inr 665.
Proof.
  destruct (svg_scale_factors 1024 "icon_512x512@2x.png") as (Hr & Hf & _).
  - simpl. do 9 right. left. reflexivity.
  - exact (conj Hr Hf).
Defined.

(** ** Paths of the configured pairs *)

Lemma length_append (s t : string) :
  String.length (s +:+ t) = (String.length s + String.length t)%nat.
Proof. induction s as [|c s IH]; simpl; [reflexivity|]. now rewrite IH. Qed.

Lemma not_self_append (s t : string) : t <> EmptyString -> s <> (s +:+ t)%string.
Proof.
  intros Ht H. apply (f_equal String.length) in H.
  rewrite length_append in H. destruct t; [done|]. simpl in H. lia.
Qed.

Lemma svg_path_not_iconset size : svg_path size <> iconset.
Proof. discriminate. Qed.

Lemma svg_path_not_icns size : svg_path size <> icns.
Proof. discriminate. Qed.

Lemma temp_png_not_iconset size : temp_png size <> iconset.
Proof. discriminate. Qed.

Lemma temp_png_not_icns size : temp_png size <> icns.
Proof. discriminate. Qed.

Lemma iconset_not_icns : iconset <> icns.
Proof. discriminate. Qed.

Lemma resolve_iconset : Fs.resolve iconset = [iconset].
Proof. reflexivity. Qed.

Lemma resolve_icns : Fs.resolve icns = [icns].
Proof. reflexivity. Qed.

Lemma sizes_names p : In p sizes -> pair_names p.
Proof.
  intros Hin. simpl in Hin.
  repeat (destruct Hin as [<- | Hin];
    [ split;
      [ reflexivity | reflexivity | reflexivity
      | eexists; vm_compute; reflexivity
      | intros q Hq; simpl in Hq;
        repeat (destruct Hq as [<- | Hq]; [discriminate|]); destruct Hq
      | intros q Hq; simpl in Hq;
        repeat (destruct Hq as [<- | Hq]; [discriminate|]); destruct Hq ]
    | ]).
  destruct Hin.
Qed.

(** ** The file system operations at the paths the script uses *)

Section FsFacts.
Context (d : gmap string Fs.node).

Lemma find_top name : Fs.find [name] d = d !! name.
Proof. cbn [Fs.find]. destruct (d !! name) as [[]|]; reflexivity. Qed.

Lemma find_in dir name :
  Fs.find [dir; name] d
  = match d !! dir with
    | Some (Fs.Dir sub) => sub !! name
    | _ => None
    end.
Proof.
  cbn [Fs.find]. destruct (d !! dir) as [[|sub]|]; try reflexivity.
  destruct (sub !! name) as [[]|]; reflexivity.
Qed.

Lemma write_top name data :
  Fs.write [name] data d
  = if is_dir (d !! name) then inl Py.IsADirectoryError
    else inr (<[name := Fs.File data]> d).
Proof.
  unfold Fs.write. cbn [Fs.at_parent].
  destruct (d !! name) as [[]|]; reflexivity.
Qed.

Lemma write_in dir name data :
  Fs.write [dir; name] data d
  = match d !! dir with
    | None => inl Py.FileNotFoundError
    | Some (Fs.File _) => inl Py.NotADirectoryError
    | Some (Fs.Dir sub) =>
        if is_dir (sub !! name) then inl Py.IsADirectoryError
        else inr (<[dir := Fs.Dir (<[name := Fs.File data]> sub)]> d)
    end.
Proof.
  unfold Fs.write. cbn [Fs.at_parent].
  destruct (d !! dir) as [[|sub]|]; try reflexivity.
  destruct (sub !! name) as [[]|]; reflexivity.
Qed.

Lemma remove_top name :
  Fs.remove [name] d
  = match d !! name with
    | None => inl Py.FileNotFoundError
    | Some (Fs.Dir _) => inl Py.PermissionError
    | Some (Fs.File _) => inr (delete name d)
    end.
Proof. reflexivity. Qed.

Lemma rm_rf_top name : rm_rf [name] d = delete name d.
Proof. reflexivity. Qed.

Lemma makedirs_top name :
  Fs.makedirs [name] d
  = match d !! name with
    | None => inr (<[name := Fs.Dir ∅]> d)
    | Some (Fs.Dir _) => inr d
    | Some (Fs.File _) => inl Py.FileExistsError
    end.
Proof. reflexivity. Qed.

(** A successful move of a top-level entry into a directory. *)
Lemma rename_into_inv src dir name d' :
  src <> dir ->
  Fs.rename [src] [dir; name] d = inr d' ->
  exists n sub,
    d !! src = Some n /\ d !! dir = Some (Fs.Dir sub) /\
    d' = <[dir := Fs.Dir (<[name := n]> sub)]> (delete src d).
Proof.
  intros Hne. unfold Fs.rename. rewrite find_top, find_in.
  destruct (d !! src) as [n|] eqn:Hsrc; [|discriminate].
  unfold Fs.detach, Fs.attach. cbn [Fs.at_parent].
  rewrite lookup_delete_ne by done.
  destruct (d !! dir) as [[x|sub]|] eqn:Hdir.
  - destruct n; discriminate.
  - intros H. exists n, sub. split; [done|]. split; [done|].
    destruct n as [x|es]; destruct (sub !! name) as [[y|es']|];
      try discriminate; try (injection H as <-; reflexivity).
    destruct (decide (size es' = 0%nat)); [|discriminate].
    injection H as <-; reflexivity.
  - destruct n; discriminate.
Qed.

(** Moving a regular file into a directory succeeds unless a directory
    has its name there. *)
Lemma rename_file_into src dir name data sub :
  src <> dir ->
  d !! src = Some (Fs.File data) ->
  d !! dir = Some (Fs.Dir sub) ->
  is_dir (sub !! name) = false ->
  Fs.rename [src] [dir; name] d
  = inr (<[dir := Fs.Dir (<[name := Fs.File data]> sub)]> (delete src d)).
Proof.
  intros Hne Hsrc Hdir Hname. unfold Fs.rename.
  rewrite find_top, find_in, Hsrc, Hdir.
  unfold Fs.detach, Fs.attach. cbn [Fs.at_parent].
  rewrite lookup_delete_ne, Hdir by done.
  destruct (sub !! name) as [[]|]; try reflexivity. discriminate.
Qed.

(** A tool either changes nothing or leaves a regular file at its
    output path. *)
Lemma tool_write_top name out :
  tool_write [name] out d
  = match out with
    | Some data =>
        if is_dir (d !! name) then d else <[name := Fs.File data]> d
    | None => d
    end.
Proof.
  unfold tool_write. destruct out; [|reflexivity].
  rewrite write_top. destruct (is_dir _); reflexivity.
Qed.

Lemma tool_write_in dir name out :
  tool_write [dir; name] out d
  = match out, d !! dir with
    | Some data, Some (Fs.Dir sub) =>
        if is_dir (sub !! name) then d
        else <[dir := Fs.Dir (<[name := Fs.File data]> sub)]> d
    | _, _ => d
    end.
Proof.
  unfold tool_write. destruct out; [|reflexivity].
  rewrite write_in. destruct (d !! dir) as [[|sub]|]; try reflexivity.
  destruct (is_dir _); reflexivity.
Qed.

End FsFacts.

(** ** Running the monad *)

Lemma bind_Ok_inv {A B} (m : M A) (k : A -> M B) w b w2 :
bind m k w = Ok b w2 -> exists a w1, m w = Ok a w1 /\ k a w1 = Ok b w2.
Proof.
unfold bind. destruct (m w) as [a w1|e w1]; [|discriminate]. eauto.
Qed.

Lemma bind_Ok {A B} (m : M A) (k : A -> M B) w a w1 :
m w = Ok a w1 -> bind m k w = k a w1.
Proof. unfold bind. now intros ->. Qed.

Lemma bind_Raised {A B} (m : M A) (k : A -> M B) w e w1 :
m w = Raised e w1 -> bind m k w = Raised e w1.
Proof. unfold bind. now intros ->. Qed.

Lemma on_files_Ok_inv f w w' :
on_files f w = Ok tt w' ->
exists d, f (files w) = inr d /\ w' = World d (trace w).
Proof.
unfold on_files. destruct (f (files w)) as [e|d]; [discriminate|].
intros [= <-]. eauto.
Qed.

Lemma on_files_Ok f w d :
f (files w) = inr d -> on_files f w = Ok tt (World d (trace w)).
Proof. unfold on_files. now intros ->. Qed.

(** ** One iteration of the loop *)

Section Iteration.
Context (T : tools) (p : Z * string) (Hp : pair_names p).

Lemma attempt_eq w doc :
  svg_content p.1 = inr doc ->
  attempt T p w
  = if is_dir (files w !! svg_path p.1) then Raised Py.IsADirectoryError w
    else
      let d1 := <[svg_path p.1 := Fs.File doc]> (files w) in
      let d2 := exec T (Qlmanage p.1 (svg_path p.1)) d1 in
      Ok (present (d2 !! temp_png p.1))
         (World d2 (trace w ++ [Spawned (Qlmanage p.1 (svg_path p.1))])).
Proof.
  intros Hdoc.
  pose proof (names_svg _ Hp) as Hs. pose proof (names_tmp _ Hp) as Ht.
  destruct p as [size filename]; simpl in Hs, Ht, Hdoc |- *.
  unfold attempt, bind, eval, write_text, on_files. rewrite Hdoc.
  rewrite Hs, write_top.
  destruct (is_dir (files w !! svg_path size)); [reflexivity|].
  unfold os_system, os_path_exists, Fs.exists_, exec; simpl.
  unfold temp_png. rewrite Ht, find_top. reflexivity.
Qed.

(** The loop body is the attempt followed by the branch on its answer
    and the removal of the temporary file. *)
Lemma process_one_attempt w :
  process_one T p w
  = match attempt T p w with
    | Raised e w1 => Raised e w1
    | Ok found w1 =>
        ((if found
          then os_rename (temp_png p.1) (png_path p.2) ;;
               print (created p.2)
          else os_system T (sips_command p)) ;;
         os_remove (svg_path p.1)) w1
    end.
Proof.
  clear Hp. destruct p as [size filename].
  unfold process_one, attempt, bind; simpl.
  destruct (eval (svg_content size) w) as [doc w0|]; [|reflexivity].
  destruct (write_text (svg_path size) doc w0) as [[] w1|]; reflexivity.
Qed.

Lemma exec_qlmanage d :
  exec T (Qlmanage p.1 (svg_path p.1)) d
  = match qlmanage T p.1 (svg_path p.1) d with
    | Some data =>
        if is_dir (d !! temp_png p.1) then d
        else <[temp_png p.1 := Fs.File data]> d
    | None => d
    end.
Proof. unfold exec. rewrite (names_tmp _ Hp). apply tool_write_top. Qed.

Lemma exec_sips d :
  exec T (sips_command p) d
  = match sips T p.1 (png_path p.2) (svg_path p.1) d, d !! iconset with
    | Some data, Some (Fs.Dir sub) =>
        if is_dir (sub !! p.2) then d
        else <[iconset := Fs.Dir (<[p.2 := Fs.File data]> sub)]> d
    | _, _ => d
    end.
Proof.
  unfold exec, sips_command. rewrite (names_png _ Hp). apply tool_write_in.
Qed.

Lemma exec_qlmanage_other d k :
  k <> temp_png p.1 ->
  exec T (Qlmanage p.1 (svg_path p.1)) d !! k = d !! k.
Proof.
  intros Hk. rewrite exec_qlmanage.
  destruct (qlmanage _ _ _ _); [|reflexivity].
  destruct (is_dir _); [reflexivity|]. now rewrite lookup_insert_ne.
Qed.

Lemma exec_sips_other d k :
  k <> iconset -> exec T (sips_command p) d !! k = d !! k.
Proof.
  intros Hk. rewrite exec_sips.
  destruct (sips _ _ _ _ _); [|reflexivity].
  destruct (d !! iconset) as [[|sub]|]; try reflexivity.
  destruct (is_dir _); [reflexivity|]. now rewrite lookup_insert_ne.
Qed.

Lemma svg_not_tmp : svg_path p.1 <> temp_png p.1.
Proof. apply not_self_append. discriminate. Qed.

(** What the attempt leaves behind. *)
Lemma attempt_Ok_inv w found w1 :
  attempt T p w = Ok found w1 ->
  exists doc,
    svg_content p.1 = inr doc /\
    is_dir (files w !! svg_path p.1) = false /\
    files w1 = exec T (Qlmanage p.1 (svg_path p.1))
                 (<[svg_path p.1 := Fs.File doc]> (files w)) /\
    trace w1 = trace w ++ [Spawned (Qlmanage p.1 (svg_path p.1))] /\
    found = present (files w1 !! temp_png p.1) /\
    files w1 !! svg_path p.1 = Some (Fs.File doc).
Proof.
  destruct (names_content _ Hp) as [doc Hdoc].
  rewrite (attempt_eq _ _ Hdoc).
  destruct (is_dir _) eqn:Hdir; [discriminate|].
  cbv zeta. intros Heq.
  match type of Heq with
  | Ok ?b ?w0 = _ =>
      assert (found = b) as -> by congruence;
      assert (w1 = w0) as -> by congruence
  end.
  exists doc. cbn [files trace].
  do 5 (split; [first [assumption | reflexivity]|]).
  rewrite exec_qlmanage_other by apply svg_not_tmp.
  apply lookup_insert_eq.
Qed.

Lemma attempt_other w found w1 k :
  attempt T p w = Ok found w1 ->
  k <> svg_path p.1 -> k <> temp_png p.1 ->
  files w1 !! k = files w !! k.
Proof.
  intros H Hk1 Hk2.
  destruct (attempt_Ok_inv _ _ _ H) as (doc & _ & _ & -> & _).
  rewrite exec_qlmanage_other by done. now rewrite lookup_insert_ne.
Qed.

(** [qlmanage] puts no directory at the thumbnail's path. *)
Lemma attempt_keeps_tmp w found w1 :
  attempt T p w = Ok found w1 ->
  is_dir (files w !! temp_png p.1) = false ->
  is_dir (files w1 !! temp_png p.1) = false.
Proof.
  intros H Hfile.
  destruct (attempt_Ok_inv _ _ _ H) as (doc & _ & _ & -> & _).
  rewrite exec_qlmanage.
  assert (Hd1 : (<[svg_path p.1 := Fs.File doc]> (files w)) !! temp_png p.1
                = files w !! temp_png p.1)
    by (apply lookup_insert_ne, svg_not_tmp).
  destruct (qlmanage _ _ _ _) as [data|]; [|now rewrite Hd1].
  rewrite Hd1, Hfile. now rewrite lookup_insert_eq.
Qed.

(** The primary path: the thumbnail is moved, the message printed, the
    temporary file removed.  Only the move can fail. *)
Lemma process_one_found w w1 :
  attempt T p w = Ok true w1 ->
  process_one T p w
  = match Fs.rename [temp_png p.1] [iconset; p.2] (files w1) with
    | inl e => Raised e w1
    | inr d3 =>
        Ok tt (World (delete (svg_path p.1) d3)
                 (trace w1 ++ [Printed (created p.2)]))
    end.
Proof.
  intros H. rewrite process_one_attempt, H.
  destruct (attempt_Ok_inv _ _ _ H) as (doc & _ & _ & _ & _ & _ & Hsvg).
  unfold bind, os_rename, on_files.
  rewrite (names_png _ Hp).
  replace (Fs.resolve (temp_png p.1)) with [temp_png p.1]
    by (symmetry; apply (names_tmp _ Hp)).
  destruct (Fs.rename _ _ _) as [e|d3] eqn:Hmv; [reflexivity|].
  apply rename_into_inv in Hmv as (n & sub & _ & _ & ->);
    [|apply temp_png_not_iconset].
  unfold print, os_remove, on_files; cbn [files trace].
  rewrite (names_svg _ Hp), remove_top.
  rewrite lookup_insert_ne by (apply not_eq_sym, svg_path_not_iconset).
  rewrite lookup_delete_ne by (apply not_eq_sym, svg_not_tmp).
  rewrite Hsvg. reflexivity.
Qed.

(** The fallback path: [sips] is spawned, nothing is printed, and whatever
    [sips] did the temporary file is removed and the iteration ends
    normally. *)
Lemma process_one_fallback w w1 :
  attempt T p w = Ok false w1 ->
  process_one T p w
  = Ok tt (World (delete (svg_path p.1) (exec T (sips_command p) (files w1)))
             (trace w1 ++ [Spawned (sips_command p)])).
Proof.
  intros H. rewrite process_one_attempt, H.
  destruct (attempt_Ok_inv _ _ _ H) as (doc & _ & _ & _ & _ & _ & Hsvg).
  unfold bind, os_system, os_remove, on_files; cbn [files trace].
  rewrite (names_svg _ Hp), remove_top.
  rewrite exec_sips_other by apply svg_path_not_iconset.
  rewrite Hsvg. reflexivity.
Qed.

End Iteration.

(** ** What a completed iteration changed *)

Section IterationEffects.
Context (T : tools) (p : Z * string) (Hp : pair_names p).

Lemma process_one_Ok_cases w w' :
  process_one T p w = Ok tt w' ->
  exists found w1,
    attempt T p w = Ok found w1 /\
    ((found = true /\
      exists n sub,
        files w1 !! temp_png p.1 = Some n /\
        files w1 !! iconset = Some (Fs.Dir sub) /\
        w' = World (delete (svg_path p.1)
                      (<[iconset := Fs.Dir (<[p.2 := n]> sub)]>
                         (delete (temp_png p.1) (files w1))))
                   (trace w1 ++ [Printed (created p.2)]))
     \/
     (found = false /\
      files w1 !! temp_png p.1 = None /\
      w' = World (delete (svg_path p.1) (exec T (sips_command p) (files w1)))
                 (trace w1 ++ [Spawned (sips_command p)]))).
Proof.
  intros H.
  pose proof H as H0. rewrite (process_one_attempt T p) in H0.
  destruct (attempt T p w) as [found w1|e w1] eqn:Hat; [clear H0|discriminate H0].
  exists found, w1. split; [reflexivity|].
  destruct (attempt_Ok_inv T p Hp _ _ _ Hat) as (doc & _ & _ & _ & _ & Hf & _).
  destruct found.
  - left. split; [reflexivity|].
    rewrite (process_one_found T p Hp _ _ Hat) in H.
    destruct (Fs.rename _ _ _) as [e|d3] eqn:Hmv; [discriminate H|].
    apply rename_into_inv in Hmv as (n & sub & Hn & Hsub & ->);
      [|apply temp_png_not_iconset].
    exists n, sub. split; [done|]. split; [done|]. congruence.
  - right. split; [reflexivity|].
    rewrite (process_one_fallback T p Hp _ _ Hat) in H.
    split; [|congruence].
    destruct (files w1 !! temp_png p.1); [discriminate Hf|reflexivity].
Qed.

(** The temporary vector file is gone. *)
Lemma process_one_svg_gone w w' :
  process_one T p w = Ok tt w' -> files w' !! svg_path p.1 = None.
Proof.
  intros H.
  destruct (process_one_Ok_cases _ _ H)
    as (found & w1 & _ & [(_ & n & sub & _ & _ & ->) | (_ & _ & ->)]);
    apply lookup_delete_eq.
Qed.

(** So is the thumbnail in the working directory. *)
Lemma process_one_tmp_gone w w' :
  process_one T p w = Ok tt w' -> files w' !! temp_png p.1 = None.
Proof.
  intros H.
  destruct (process_one_Ok_cases _ _ H)
    as (found & w1 & _ & [(_ & n & sub & _ & _ & ->) | (_ & Hno & ->)]);
    cbn [files].
  - rewrite lookup_delete_ne by apply (svg_not_tmp p).
    rewrite lookup_insert_ne by (apply not_eq_sym, temp_png_not_iconset).
    apply lookup_delete_eq.
  - rewrite lookup_delete_ne by apply (svg_not_tmp p).
    rewrite (exec_sips_other T p Hp) by apply temp_png_not_iconset.
    exact Hno.
Qed.

(** Nothing else in the working directory changed, the staging directory
    apart. *)
Lemma process_one_other w w' k :
  process_one T p w = Ok tt w' ->
  k <> svg_path p.1 -> k <> temp_png p.1 -> k <> iconset ->
  files w' !! k = files w !! k.
Proof.
  intros H Hk1 Hk2 Hk3.
  destruct (process_one_Ok_cases _ _ H)
    as (found & w1 & Hat & [(_ & n & sub & _ & _ & ->) | (_ & _ & ->)]);
    cbn [files]; rewrite lookup_delete_ne by done.
  - rewrite lookup_insert_ne, lookup_delete_ne by done.
    apply (attempt_other T p Hp _ _ _ _ Hat); done.
  - rewrite (exec_sips_other T p Hp) by done.
    apply (attempt_other T p Hp _ _ _ _ Hat); done.
Qed.

(** The staging directory is untouched, or gained (or had replaced) the
    entry of this pair; the new entry is a regular file unless a directory
    sat at the thumbnail's path. *)
Lemma process_one_staging w w' :
  process_one T p w = Ok tt w' ->
  files w' !! iconset = files w !! iconset \/
  exists sub n,
    files w !! iconset = Some (Fs.Dir sub) /\
    files w' !! iconset = Some (Fs.Dir (<[p.2 := n]> sub)) /\
    (is_dir (files w !! temp_png p.1) = false -> is_dir (Some n) = false).
Proof.
  intros H.
  destruct (process_one_Ok_cases _ _ H)
    as (found & w1 & Hat & Hcases).
  assert (Hsame : files w1 !! iconset = files w !! iconset).
  { apply (attempt_other T p Hp _ _ _ _ Hat); apply not_eq_sym;
      [apply svg_path_not_iconset | apply temp_png_not_iconset]. }
  destruct Hcases as [(_ & n & sub & Hn & Hsub & ->) | (_ & _ & ->)];
    cbn [files]; rewrite lookup_delete_ne by apply svg_path_not_iconset.
  - right. exists sub, n. split; [congruence|].
    split; [apply lookup_insert_eq|].
    intros Hfile. rewrite <- Hn.
    apply (attempt_keeps_tmp T p Hp _ _ _ Hat Hfile).
  - rewrite (exec_sips T p Hp).
    destruct (sips _ _ _ _ _) as [data|]; [|left; exact Hsame].
    destruct (files w1 !! iconset) as [[x|sub]|] eqn:Hd;
      try (left; congruence).
    destruct (is_dir (sub !! p.2)); [left; congruence|].
    right. exists sub, (Fs.File data). split; [congruence|].
    split; [apply lookup_insert_eq|reflexivity].
Qed.

(** The events of a completed iteration. *)
Lemma process_one_trace w w' :
  process_one T p w = Ok tt w' ->
  exists found w1,
    attempt T p w = Ok found w1 /\
    trace w' = trace w ++
      [Spawned (Qlmanage p.1 (svg_path p.1));
       if found then Printed (created p.2) else Spawned (sips_command p)].
Proof.
  intros H.
  destruct (process_one_Ok_cases _ _ H)
    as (found & w1 & Hat & Hcases).
  exists found, w1. split; [exact Hat|].
  destruct (attempt_Ok_inv T p Hp _ _ _ Hat) as (_ & _ & _ & _ & Htr & _).
  destruct Hcases as [(-> & n & sub & _ & _ & ->) | (-> & _ & ->)];
    cbn [trace]; rewrite Htr, <- app_assoc; reflexivity.
Qed.

End IterationEffects.

(** ** The first and the last lines *)

Lemma prepare_eq w :
  prepare w
  = match files w !! iconset with
    | None =>
        Ok tt (World (<[iconset := Fs.Dir ∅]> (files w))
                 (trace w ++ [Printed msg_creating]))
    | Some (Fs.Dir _) => Ok tt (World (files w) (trace w ++ [Printed msg_creating]))
    | Some (Fs.File _) => Raised Py.FileExistsError w
    end.
Proof.
  unfold prepare, bind, os_makedirs, on_files.
  rewrite resolve_iconset, makedirs_top.
  destruct (files w !! iconset) as [[]|]; reflexivity.
Qed.

Lemma exec_iconutil T d :
  exec T (Iconutil iconset icns) d
  = match iconutil T iconset icns d with
    | Some data => if is_dir (d !! icns) then d else <[icns := Fs.File data]> d
    | None => d
    end.
Proof. unfold exec. rewrite resolve_icns. apply tool_write_top. Qed.

(** The last lines never raise. *)
Lemma bundle_eq T w :
  bundle T w
  = let d1 := exec T (Iconutil iconset icns) (files w) in
    if present (d1 !! icns)
    then Ok tt (World (delete iconset d1)
                  (trace w ++ [Printed msg_converting;
                               Spawned (Iconutil iconset icns);
                               Printed msg_success; Spawned (RmRf iconset)]))
    else Ok tt (World d1
                  (trace w ++ [Printed msg_converting;
                               Spawned (Iconutil iconset icns);
                               Printed msg_failure])).
Proof.
  unfold bundle, bind, print, os_system, os_path_exists, Fs.exists_.
  cbn [files trace]. rewrite resolve_icns, find_top.
  destruct (exec T (Iconutil iconset icns) (files w) !! icns);
    cbn [present files trace].
  - unfold exec at 1. rewrite resolve_iconset, rm_rf_top.
    rewrite <- !app_assoc. reflexivity.
  - rewrite <- !app_assoc. reflexivity.
Qed.

Lemma main_generate T w :
  main T w
  = match generate T w with
    | Ok _ w1 => bundle T w1
    | Raised e w1 => Raised e w1
    end.
Proof.
  unfold main, generate, bind.
  destruct (prepare w) as [[] w0|]; [|reflexivity].
  destruct (for_each sizes (process_one T) w0) as [[] w1|]; reflexivity.
Qed.

Lemma generate_eq T w :
  generate T w
  = match prepare w with
    | Ok _ w0 => for_each sizes (process_one T) w0
    | Raised e w0 => Raised e w0
    end.
Proof. unfold generate, bind. destruct (prepare w) as [[] ?|]; reflexivity. Qed.

(** ** The loop *)

Section Loop.
Context (T : tools).

Lemma for_each_cons p l w :
  for_each (p :: l) (process_one T) w
  = match process_one T p w with
    | Ok _ w' => for_each l (process_one T) w'
    | Raised e w' => Raised e w'
    end.
Proof. cbn [for_each]. unfold bind. destruct (process_one T p w) as [[] ?|]; reflexivity. Qed.

Lemma for_each_app l1 l2 w :
  for_each (l1 ++ l2) (process_one T) w
  = match for_each l1 (process_one T) w with
    | Ok _ w' => for_each l2 (process_one T) w'
    | Raised e w' => Raised e w'
    end.
Proof.
  revert w. induction l1 as [|p l1 IH]; intros w; [reflexivity|].
  rewrite <- app_comm_cons, !for_each_cons.
  destruct (process_one T p w) as [[] w'|]; [apply IH|reflexivity].
Qed.

(** An invariant of the completed iterations holds after the loop. *)
Lemma for_each_invariant (I : world -> Prop) l :
  (forall p w w', In p l -> I w -> process_one T p w = Ok tt w' -> I w') ->
  forall w w', I w -> for_each l (process_one T) w = Ok tt w' -> I w'.
Proof.
  induction l as [|p l IH]; intros Hstep w w' Hw Hrun.
  - injection Hrun as <-. exact Hw.
  - rewrite for_each_cons in Hrun.
    destruct (process_one T p w) as [[] w1|] eqn:Hp; [|discriminate Hrun].
    apply (IH (fun q v v' Hq => Hstep q v v' (or_intror Hq)) w1 w');
      [|exact Hrun].
    apply (Hstep p w w1); [now left|exact Hw|exact Hp].
Qed.

(** An invariant that lets every iteration complete lets the loop
    complete. *)
Lemma for_each_completes (I : world -> Prop) l :
  (forall p w, In p l -> I w ->
     exists w', process_one T p w = Ok tt w' /\ I w') ->
  forall w, I w -> exists w', for_each l (process_one T) w = Ok tt w' /\ I w'.
Proof.
  induction l as [|p l IH]; intros Hstep w Hw.
  - exists w. split; [reflexivity|exact Hw].
  - destruct (Hstep p w (or_introl eq_refl) Hw) as (w1 & Hp & Hw1).
    rewrite for_each_cons, Hp.
    apply IH; [|exact Hw1]. intros q v Hq. apply Hstep. now right.
Qed.

End Loop.

(** ** Runs from a tidy directory complete *)

Lemma is_dir_present_file (o : option Fs.node) :
  present o = true -> is_dir o = false -> exists data, o = Some (Fs.File data).
Proof. destruct o as [[data|]|]; try discriminate. eauto. Qed.

Lemma process_one_keeps_files T p w w' k :
  pair_names p ->
  process_one T p w = Ok tt w' ->
  k <> iconset ->
  is_dir (files w !! k) = false -> is_dir (files w' !! k) = false.
Proof.
  intros Hp H Hk Hfile.
  destruct (decide (k = svg_path p.1)) as [->|Hk1];
    [now rewrite (process_one_svg_gone T p Hp _ _ H)|].
  destruct (decide (k = temp_png p.1)) as [->|Hk2];
    [now rewrite (process_one_tmp_gone T p Hp _ _ H)|].
  now rewrite (process_one_other T p Hp _ _ k H).
Qed.

Lemma settled_step T p w :
  In p sizes -> settled (files w) ->
  exists w', process_one T p w = Ok tt w' /\ settled (files w').
Proof.
  intros Hin [(sub & Hsub & Hentries) Hfiles].
  pose proof (sizes_names p Hin) as Hp.
  destruct (names_content _ Hp) as [doc Hdoc].
  destruct (Hfiles p Hin) as [Hsvg Htmp].
  assert (Hrun : exists w', process_one T p w = Ok tt w').
  { pose proof (attempt_eq T p Hp w doc Hdoc) as Hat.
    rewrite Hsvg in Hat. cbv zeta in Hat.
    match type of Hat with _ = Ok ?b ?w1 => destruct b eqn:Hfound end.
    - pose proof (attempt_keeps_tmp T p Hp _ _ _ Hat Htmp) as Hkind.
      cbn [files] in Hkind.
      destruct (is_dir_present_file _ Hfound Hkind) as [data Hdata].
      rewrite (process_one_found T p Hp _ _ Hat). cbn [files].
      erewrite rename_file_into;
        [eexists; reflexivity | apply temp_png_not_iconset | exact Hdata | | apply Hentries, Hin].
      rewrite (exec_qlmanage_other T p Hp) by (apply not_eq_sym, temp_png_not_iconset).
      rewrite lookup_insert_ne by apply svg_path_not_iconset. exact Hsub.
    - rewrite (process_one_fallback T p Hp _ _ Hat). eexists; reflexivity. }
  destruct Hrun as [w' Hrun]. exists w'. split; [exact Hrun|]. split.
  - destruct (process_one_staging T p Hp _ _ Hrun)
      as [Hsame | (sub0 & n & Hsub0 & Hsub' & Hkind)].
    + exists sub. split; [congruence|exact Hentries].
    + exists (<[p.2 := n]> sub0). split; [exact Hsub'|].
      assert (sub0 = sub) as -> by congruence.
      intros q Hq. destruct (decide (p.2 = q.2)) as [<-|Hne].
      * rewrite lookup_insert_eq. apply Hkind, Htmp.
      * rewrite lookup_insert_ne by done. apply Hentries, Hq.
  - intros q Hq. destruct (Hfiles q Hq) as [Hs Ht].
    split; apply (process_one_keeps_files T p w w' _ Hp Hrun);
      first [apply svg_path_not_iconset | apply temp_png_not_iconset | assumption].
Qed.

Lemma tidy_prepare d tr :
  tidy d = true ->
  exists w, prepare (World d tr) = Ok tt w /\ settled (files w) /\
    trace w = tr ++ [Printed msg_creating] /\
    forall k, k <> iconset -> files w !! k = d !! k.
Proof.
  unfold tidy. intros [Hset Hfiles]%andb_true_iff.
  rewrite forallb_forall in Hfiles.
  assert (Hkeep : forall q, In q sizes ->
            is_dir (d !! svg_path q.1) = false /\ is_dir (d !! temp_png q.1) = false).
  { intros q Hq. specialize (Hfiles q Hq).
    apply andb_true_iff in Hfiles as [H1 H2].
    split; now apply negb_true_iff. }
  rewrite prepare_eq. cbn [files trace].
  destruct (d !! iconset) as [[x|sub]|] eqn:Hd; [discriminate Hset| |].
  - eexists. split; [reflexivity|]. cbn [files trace].
    split; [|split; [reflexivity|reflexivity]].
    split; [|exact Hkeep].
    exists sub. split; [exact Hd|].
    rewrite forallb_forall in Hset. intros q Hq.
    now apply negb_true_iff, Hset.
  - eexists. split; [reflexivity|]. cbn [files trace].
    split; [|split; [reflexivity|intros k Hk; now rewrite lookup_insert_ne]].
    split.
    + exists ∅. split; [apply lookup_insert_eq|]. intros q _.
      now rewrite lookup_empty.
    + intros q Hq.
      rewrite !lookup_insert_ne
        by first [apply not_eq_sym, svg_path_not_iconset
                 | apply not_eq_sym, temp_png_not_iconset].
      apply Hkeep, Hq.
Qed.

(** From a tidy directory the script runs to its last line. *)
Lemma generate_completes T d :
  tidy d = true ->
  exists w, generate T (World d []) = Ok tt w /\ settled (files w).
Proof.
  intros Htidy.
  destruct (tidy_prepare d [] Htidy) as (w0 & Hprep & Hset & _).
  rewrite generate_eq, Hprep.
  apply (for_each_completes T (fun w => settled (files w))); [|exact Hset].
  intros p w Hin Hw. apply settled_step; assumption.
Qed.

Lemma bundle_completes T w : exists w', bundle T w = Ok tt w'.
Proof. rewrite bundle_eq. cbv zeta. destruct (present _); eauto. Qed.

Lemma run_completes T d : tidy d = true -> exists w, run T d = Ok tt w.
Proof.
  intros Htidy. destruct (generate_completes T d Htidy) as (w1 & Hgen & _).
  unfold run. rewrite main_generate, Hgen. apply bundle_completes.
Qed.

(** ** Two runs, evaluated *)

(** On a machine without the three programmes the script spawns
    [qlmanage] and then [sips] for every pair, prints no [Created] line,
    and reports the failure. *)
Example run_without_tools :
  run no_tools ∅
  = Ok tt (World {[ iconset := Fs.Dir ∅ ]}
      ([Printed msg_creating]
       ++ flat_map (fun p => [Spawned (Qlmanage p.1 (svg_path p.1));
                              Spawned (sips_command p)]) sizes
       ++ [Printed msg_converting; Spawned (Iconutil iconset icns);
           Printed msg_failure])).
Proof. vm_compute. reflexivity. Qed.

(** When every programme works only the artifact is left, and the
    events are the thumbnails, the bundling and the clean-up. *)
Example run_with_all_tools :
  trace (final (run all_tools ∅))
  = [Printed msg_creating]
    ++ flat_map (fun p => [Spawned (Qlmanage p.1 (svg_path p.1));
                           Printed (created p.2)]) sizes
    ++ [Printed msg_converting; Spawned (Iconutil iconset icns);
        Printed msg_success; Spawned (RmRf iconset)]
  /\ dom (files (final (run all_tools ∅))) = {[ icns ]}.
Proof. split; vm_compute; reflexivity. Qed.

(** ** After the run *)

Lemma exists_at_top name w :
  Fs.resolve name = [name] -> exists_at name w = present (files w !! name).
Proof.
  intros Hres. unfold exists_at, Fs.exists_. rewrite Hres, find_top.
  reflexivity.
Qed.

Lemma bundle_other T w w' k :
  bundle T w = Ok tt w' -> k <> icns -> k <> iconset ->
  files w' !! k = files w !! k.
Proof.
  rewrite bundle_eq. cbv zeta. intros H Hk1 Hk2.
  assert (Hexec : exec T (Iconutil iconset icns) (files w) !! k = files w !! k).
  { rewrite exec_iconutil. destruct (iconutil _ _ _ _); [|reflexivity].
    destruct (is_dir _); [reflexivity|]. now rewrite lookup_insert_ne. }
  destruct (present _).
  - assert (w' = World (delete iconset (exec T (Iconutil iconset icns) (files w)))
               (trace w ++ [Printed msg_converting; Spawned (Iconutil iconset icns);
                            Printed msg_success; Spawned (RmRf iconset)]))
      as -> by congruence.
    cbn [files]. now rewrite lookup_delete_ne.
  - assert (w' = World (exec T (Iconutil iconset icns) (files w))
               (trace w ++ [Printed msg_converting; Spawned (Iconutil iconset icns);
                            Printed msg_failure]))
      as -> by congruence.
    exact Hexec.
Qed.

Lemma run_Ok_inv T d w :
  run T d = Ok tt w ->
  exists w1, generate T (World d []) = Ok tt w1 /\ bundle T w1 = Ok tt w.
Proof.
  unfold run. rewrite main_generate.
  destruct (generate T (World d [])) as [[] w1|]; [|discriminate]. eauto.
Qed.

Lemma generate_Ok_inv T d w1 :
  generate T (World d []) = Ok tt w1 ->
  exists w0, prepare (World d []) = Ok tt w0 /\
             for_each sizes (process_one T) w0 = Ok tt w1.
Proof.
  rewrite generate_eq.
  destruct (prepare (World d [])) as [[] w0|]; [|discriminate]. eauto.
Qed.

(** Every temporary vector file is gone when the loop is over. *)
Lemma generate_no_svg T d w1 p :
  generate T (World d []) = Ok tt w1 -> In p sizes ->
  files w1 !! svg_path p.1 = None.
Proof.
  intros (w0 & _ & Hloop)%generate_Ok_inv Hin.
  destruct (in_split _ _ Hin) as (pre & post & Hsplit).
  assert (Hpost : forall q, In q post -> In q sizes)
    by (intros q Hq; rewrite Hsplit; apply in_or_app; right; now right).
  rewrite Hsplit, for_each_app in Hloop.
  destruct (for_each pre (process_one T) w0) as [[] wa|]; [|discriminate].
  rewrite for_each_cons in Hloop.
  destruct (process_one T p wa) as [[] wb|] eqn:Hstep; [|discriminate].
  pose proof (sizes_names p Hin) as Hp.
  apply (for_each_invariant T (fun w => files w !! svg_path p.1 = None) post)
    with (w := wb); [|apply (process_one_svg_gone T p Hp _ _ Hstep)|exact Hloop].
  intros q w w' Hq Hgone Hq_step.
  pose proof (sizes_names q (Hpost q Hq)) as Hqn.
  destruct (decide (svg_path p.1 = svg_path q.1)) as [->|Hne];
    [apply (process_one_svg_gone T q Hqn _ _ Hq_step)|].
  rewrite (process_one_other T q Hqn _ _ _ Hq_step);
    [exact Hgone | exact Hne | | apply svg_path_not_iconset].
  apply (names_svg_tmp _ Hp), Hpost, Hq.
Qed.

(** C4 (as the code has it): after a run that reaches its last line,
    whatever the programmes did on the primary or the fallback path, none
    of the temporary vector files [temp_<size>.svg] is left; and a run
    from a tidy directory does reach its last line. *)
Theorem temporary_svg_removed (T : tools) (d : gmap string Fs.node) :
  (tidy d = true -> exists w, run T d = Ok tt w) /\
  (forall w, run T d = Ok tt w ->
     forall p, In p sizes -> exists_at (svg_path p.1) w = false).
Proof.
  split; [apply run_completes|].
  intros w (w1 & Hgen & Hbundle)%run_Ok_inv p Hin.
  rewrite exists_at_top by apply (names_svg _ (sizes_names p Hin)).
  rewrite (bundle_other T w1 w _ Hbundle)
    by first [apply svg_path_not_icns | apply svg_path_not_iconset].
  now rewrite (generate_no_svg T d w1 p Hgen Hin).
Qed.

Lemma temporary_svg_removed_witness :
  exists w,
    run sips_only {[ "temp_16.svg" := Fs.File "stale" ]} = Ok tt w /\
    exists_at (svg_path 16) w = false.
Proof.
  destruct (temporary_svg_removed sips_only {[ "temp_16.svg" := Fs.File "stale" ]})
    as [Hruns Hgone].
  destruct (Hruns eq_refl) as [w Hw].
  exists w. split; [exact Hw|].
  apply (Hgone w Hw (16, "icon_16x16.png")). now left.
Defined.

(** C4, refuted as stated: [qlmanage] produces the thumbnail (the primary
    path), [os.rename] raises because a directory has the bitmap's name
    in the staging directory, line 64 is never reached, and the run ends
    with [temp_16.svg] still in the working directory. *)
Lemma temporary_svg_left_after_exception :
  exit_status (run all_tools
                 {[ iconset := Fs.Dir {[ "icon_16x16.png"%string := Fs.Dir ∅ ]} ]})
  = 1 /\
  exists_at (svg_path 16)
    (final (run all_tools
              {[ iconset := Fs.Dir {[ "icon_16x16.png"%string := Fs.Dir ∅ ]} ]}))
  = true /\
  ~ (forall p, In p sizes ->
       exists_at (svg_path p.1)
         (final (run all_tools
                   {[ iconset := Fs.Dir {[ "icon_16x16.png"%string := Fs.Dir ∅ ]} ]}))
       = false).
Proof.
  split; [vm_compute; reflexivity|]. split; [vm_compute; reflexivity|].
  intros H. specialize (H (16, "icon_16x16.png"%string) (or_introl eq_refl)).
  vm_compute in H. discriminate H.
Qed.

(** ** The final check *)

Lemma exec_iconutil_icns T d :
  present (exec T (Iconutil iconset icns) d !! icns)
  = present (d !! icns) || present (iconutil T iconset icns d).
Proof.
  rewrite exec_iconutil.
  destruct (iconutil T iconset icns d) as [data|];
    [|now rewrite orb_false_r].
  destruct (d !! icns) as [[x|sub]|] eqn:Hd; cbn [is_dir present].
  - now rewrite lookup_insert_eq.
  - now rewrite Hd.
  - now rewrite lookup_insert_eq.
Qed.

Lemma exec_iconutil_other T d k :
  k <> icns -> exec T (Iconutil iconset icns) d !! k = d !! k.
Proof.
  intros Hk. rewrite exec_iconutil.
  destruct (iconutil _ _ _ _); [|reflexivity].
  destruct (is_dir _); [reflexivity|]. now rewrite lookup_insert_ne.
Qed.

(** The two ways the last lines end. *)
Lemma bundle_outcome T w1 w :
  bundle T w1 = Ok tt w ->
  present (files w !! icns)
  = present (files w1 !! icns) || present (iconutil T iconset icns (files w1)) /\
  ((present (files w !! icns) = true /\
    files w !! iconset = None /\
    trace w = trace w1 ++ [Printed msg_converting; Spawned (Iconutil iconset icns);
                           Printed msg_success; Spawned (RmRf iconset)])
   \/
   (present (files w !! icns) = false /\
    files w !! iconset = files w1 !! iconset /\
    trace w = trace w1 ++ [Printed msg_converting; Spawned (Iconutil iconset icns);
                           Printed msg_failure])).
Proof.
  rewrite bundle_eq. cbv zeta. rewrite <- exec_iconutil_icns.
  destruct (present (exec T (Iconutil iconset icns) (files w1) !! icns)) eqn:Hic;
    intros Heq.
  - assert (w = World (delete iconset (exec T (Iconutil iconset icns) (files w1)))
               (trace w1 ++ [Printed msg_converting; Spawned (Iconutil iconset icns);
                             Printed msg_success; Spawned (RmRf iconset)]))
      as -> by congruence.
    cbn [files trace]. rewrite lookup_delete_ne by apply iconset_not_icns.
    split; [exact Hic|]. left.
    split; [exact Hic|]. split; [apply lookup_delete_eq|reflexivity].
  - assert (w = World (exec T (Iconutil iconset icns) (files w1))
               (trace w1 ++ [Printed msg_converting; Spawned (Iconutil iconset icns);
                             Printed msg_failure]))
      as -> by congruence.
    cbn [files trace]. split; [exact Hic|]. right.
    split; [exact Hic|]. split; [|reflexivity].
    apply exec_iconutil_other, iconset_not_icns.
Qed.

(** The staging directory is a directory when the loop is over. *)
Lemma generate_staging_dir T d w1 :
  generate T (World d []) = Ok tt w1 -> is_dir (files w1 !! iconset) = true.
Proof.
  intros (w0 & Hprep & Hloop)%generate_Ok_inv.
  apply (for_each_invariant T (fun w => is_dir (files w !! iconset) = true) sizes)
    with (w := w0); [| |exact Hloop].
  - intros p w w' Hin Hdir Hstep.
    destruct (process_one_staging T p (sizes_names p Hin) _ _ Hstep)
      as [-> | (sub & n & _ & -> & _)]; [exact Hdir|reflexivity].
  - rewrite prepare_eq in Hprep. cbn [files trace] in Hprep.
    destruct (d !! iconset) as [[x|sub]|] eqn:Hd; [discriminate Hprep| |].
    + assert (w0 = World d ([] ++ [Printed msg_creating])) as -> by congruence.
      cbn [files]. now rewrite Hd.
    + assert (w0 = World (<[iconset := Fs.Dir ∅]> d) ([] ++ [Printed msg_creating]))
        as -> by congruence.
      cbn [files]. now rewrite lookup_insert_eq.
Qed.

(** The artifact is out of the reach of the loop. *)
Lemma generate_icns T d w1 :
  generate T (World d []) = Ok tt w1 -> files w1 !! icns = d !! icns.
Proof.
  intros (w0 & Hprep & Hloop)%generate_Ok_inv.
  assert (H0 : files w0 !! icns = d !! icns).
  { rewrite prepare_eq in Hprep. cbn [files trace] in Hprep.
    destruct (d !! iconset) as [[x|sub]|]; [discriminate Hprep| |].
    - assert (w0 = World d ([] ++ [Printed msg_creating])) as -> by congruence.
      reflexivity.
    - assert (w0 = World (<[iconset := Fs.Dir ∅]> d) ([] ++ [Printed msg_creating]))
        as -> by congruence.
      cbn [files]. apply lookup_insert_ne, iconset_not_icns. }
  rewrite <- H0.
  apply (for_each_invariant T (fun w => files w !! icns = files w0 !! icns) sizes)
    with (w := w0); [|reflexivity|exact Hloop].
  intros p w w' Hin Hsame Hstep. rewrite <- Hsame.
  apply (process_one_other T p (sizes_names p Hin) _ _ _ Hstep);
    apply not_eq_sym;
    [apply svg_path_not_icns | apply temp_png_not_icns | apply iconset_not_icns].
Qed.

(** C9 (as the code has it): at the end of a run that reaches its last
    line the staging directory is gone exactly when [Aranet4.icns] exists
    then, whether [iconutil] wrote it in this run or it was there before;
    when no [Aranet4.icns] exists then, the staging directory is left as
    the loop made it, bitmaps included. *)
Theorem staging_removed_iff_artifact (T : tools) (d : gmap string Fs.node) :
  (tidy d = true -> exists w, run T d = Ok tt w) /\
  (forall w, run T d = Ok tt w ->
     (exists_at iconset w = false <-> exists_at icns w = true) /\
     (present (d !! icns) = true -> exists_at iconset w = false) /\
     (exists_at icns w = false ->
        exists w1, generate T (World d []) = Ok tt w1 /\
          files w !! iconset = files w1 !! iconset /\
          is_dir (files w !! iconset) = true)).
Proof.
  split; [apply run_completes|].
  intros w (w1 & Hgen & Hbundle)%run_Ok_inv.
  rewrite !exists_at_top by reflexivity.
  pose proof (generate_staging_dir T d w1 Hgen) as Hdir.
  pose proof (generate_icns T d w1 Hgen) as Hicns1.
  destruct (bundle_outcome T w1 w Hbundle)
    as [Hpresent [(Hic & Hset & _) | (Hic & Hset & _)]];
    rewrite Hic, Hset.
  - split; [now split|]. split; [reflexivity|discriminate].
  - split; [|split].
    + destruct (files w1 !! iconset); [|discriminate Hdir].
      split; discriminate.
    + intros Hold. rewrite Hic, Hicns1, Hold in Hpresent. discriminate Hpresent.
    + intros _. exists w1. now rewrite <- Hset at 2.
Qed.

Lemma staging_removed_iff_artifact_witness :
  exists w,
    run no_tools ∅ = Ok tt w /\
    exists_at iconset w = true /\ exists_at icns w = false.
Proof.
  destruct (staging_removed_iff_artifact no_tools ∅) as [Hruns Hiff].
  destruct (Hruns eq_refl) as [w Hw]. exists w. split; [exact Hw|].
  destruct (Hiff w Hw) as (Hboth & _ & Hkept).
  assert (Hno : exists_at icns w = false).
  { unfold run in Hw. vm_compute in Hw. injection Hw as <-. reflexivity. }
  split; [|exact Hno].
  destruct (exists_at iconset w); [reflexivity|].
  destruct Hboth as [Hthen _]. specialize (Hthen eq_refl). congruence.
Defined.

(** C9, refuted as stated, on both counts.  With an older
    [Aranet4.icns] and an [iconutil] that writes nothing, the run fails
    to produce the artifact and still deletes the staging directory with
    its ten bitmaps; and a run that stops at an exception leaves the
    staging directory in place although the (older) artifact exists. *)
Lemma staging_not_tied_to_producing :
  ((forall src out d, iconutil no_iconutil src out d = None) /\
   exit_status (run no_iconutil {[ icns := Fs.File "old" ]}) = 0 /\
   bitmaps_present (final (generate no_iconutil
                             (World {[ icns := Fs.File "old" ]} []))) = true /\
   artifact (final (run no_iconutil {[ icns := Fs.File "old" ]}))
   = Some "old"%string /\
   exists_at iconset (final (run no_iconutil {[ icns := Fs.File "old" ]}))
   = false) /\
  (exit_status (run all_tools {[ icns := Fs.File "old";
                                 "temp_16.svg"%string := Fs.Dir ∅ ]}) = 1 /\
   ~ (exists_at iconset
        (final (run all_tools {[ icns := Fs.File "old";
                                 "temp_16.svg"%string := Fs.Dir ∅ ]})) = false
      <-> exists_at icns
            (final (run all_tools {[ icns := Fs.File "old";
                                     "temp_16.svg"%string := Fs.Dir ∅ ]})) = true)).
Proof.
  split.
  - split; [reflexivity|]. repeat split; vm_compute; reflexivity.
  - split; [vm_compute; reflexivity|].
    intros [_ Hback].
    assert (Hicns : exists_at icns
              (final (run all_tools {[ icns := Fs.File "old";
                                       "temp_16.svg"%string := Fs.Dir ∅ ]})) = true)
      by (vm_compute; reflexivity).
    specialize (Hback Hicns). vm_compute in Hback. discriminate Hback.
Qed.

(** ** When the bundled artifact exists *)

(** C2 (as the code has it): at the end of a run the bundled artifact
    exists exactly when [Aranet4.icns] was already there before the run
    or [iconutil] wrote it in this run.  The script asks [iconutil]
    whatever became of the bitmaps: it never looks into the staging
    directory itself. *)
Theorem artifact_exists_iff (T : tools) (d : gmap string Fs.node) :
  (tidy d = true -> exists w, run T d = Ok tt w) /\
  (forall w, run T d = Ok tt w ->
     exists w1,
       generate T (World d []) = Ok tt w1 /\
       (exists_at icns w = true <->
          present (d !! icns) = true \/
          present (iconutil T iconset icns (files w1)) = true) /\
       In (Spawned (Iconutil iconset icns)) (trace w)).
Proof.
  split; [apply run_completes|].
  intros w (w1 & Hgen & Hbundle)%run_Ok_inv. exists w1.
  split; [exact Hgen|].
  rewrite exists_at_top by reflexivity.
  destruct (bundle_outcome T w1 w Hbundle) as [Hic Htrace].
  rewrite Hic, (generate_icns T d w1 Hgen), orb_true_iff.
  split; [reflexivity|].
  destruct Htrace as [(_ & _ & ->) | (_ & _ & ->)];
    apply in_or_app; right; simpl; auto.
Qed.

Lemma artifact_exists_iff_witness :
  exists w,
    run no_tools {[ icns := Fs.File "earlier" ]} = Ok tt w /\
    exists_at icns w = true.
Proof.
  destruct (artifact_exists_iff no_tools {[ icns := Fs.File "earlier" ]})
    as [Hruns Hiff].
  assert (Htidy : tidy {[ icns := Fs.File "earlier" ]} = true)
    by (vm_compute; reflexivity).
  destruct (Hruns Htidy) as [w Hw]. exists w. split; [exact Hw|].
  destruct (Hiff w Hw) as (w1 & _ & Hboth & _).
  apply Hboth. left. reflexivity.
Defined.

(** C2, refuted as stated, in both directions.  With an artifact left by
    an earlier run and programmes that produce nothing, the run ends with
    the artifact and without a single bitmap; with every bitmap produced
    and an [iconutil] that fails, the run ends without the artifact. *)
Lemma artifact_not_iff_bitmaps :
  (exit_status (run no_tools {[ icns := Fs.File "earlier" ]}) = 0 /\
   ~ (exists_at icns (final (run no_tools {[ icns := Fs.File "earlier" ]})) = true
      <-> bitmaps_present
            (final (generate no_tools
                      (World {[ icns := Fs.File "earlier" ]} []))) = true)) /\
  (exit_status (run no_iconutil ∅) = 0 /\
   ~ (exists_at icns (final (run no_iconutil ∅)) = true
      <-> bitmaps_present (final (generate no_iconutil (World ∅ []))) = true)).
Proof.
  split; (split; [vm_compute; reflexivity|]).
  - intros [Hthen _].
    assert (Hex : exists_at icns (final (run no_tools {[ icns := Fs.File "earlier" ]})) = true)
      by (vm_compute; reflexivity).
    specialize (Hthen Hex). vm_compute in Hthen. discriminate Hthen.
  - intros [_ Hback].
    assert (Hall : bitmaps_present (final (generate no_iconutil (World ∅ []))) = true)
      by (vm_compute; reflexivity).
    specialize (Hback Hall). vm_compute in Hback. discriminate Hback.
Qed.

(** ** The fallback *)

Lemma fallback_calls_app p tr1 tr2 :
  fallback_calls p (tr1 ++ tr2)
  = (fallback_calls p tr1 + fallback_calls p tr2)%nat.
Proof. unfold fallback_calls. now rewrite List.filter_app, length_app. Qed.

Lemma is_sips_for_self p : is_sips_for p (Spawned (sips_command p)) = true.
Proof.
  unfold is_sips_for, sips_command.
  now rewrite Z.eqb_refl, !String.eqb_refl.
Qed.

Lemma is_sips_for_other p q :
  q.2 <> p.2 -> is_sips_for p (Spawned (sips_command q)) = false.
Proof.
  intros Hne. unfold is_sips_for, sips_command.
  assert (Hout : String.eqb (png_path q.2) (png_path p.2) = false).
  { apply String.eqb_neq. unfold png_path. intros H. apply Hne.
    simpl in H. now injection H. }
  rewrite Hout, andb_false_r. reflexivity.
Qed.

(** The events of an iteration, however it ends. *)
Lemma process_one_final_trace T p w :
  pair_names p ->
  trace (final (process_one T p w))
  = trace w ++
    match attempt T p w with
    | Raised _ _ => []
    | Ok true w1 =>
        Spawned (Qlmanage p.1 (svg_path p.1))
        :: match Fs.rename [temp_png p.1] [iconset; p.2] (files w1) with
           | inl _ => []
           | inr _ => [Printed (created p.2)]
           end
    | Ok false _ =>
        [Spawned (Qlmanage p.1 (svg_path p.1)); Spawned (sips_command p)]
    end.
Proof.
  intros Hp.
  destruct (attempt T p w) as [found w1|e w1] eqn:Hat.
  - destruct (attempt_Ok_inv T p Hp _ _ _ Hat) as (_ & _ & _ & _ & Htr & _).
    destruct found.
    + rewrite (process_one_found T p Hp _ _ Hat).
      destruct (Fs.rename _ _ _); cbn [final trace]; rewrite Htr.
      * reflexivity.
      * now rewrite <- app_assoc.
    + rewrite (process_one_fallback T p Hp _ _ Hat). cbn [final trace].
      now rewrite Htr, <- app_assoc.
  - rewrite process_one_attempt, Hat. cbn [final].
    destruct (names_content _ Hp) as [doc Hdoc].
    rewrite (attempt_eq T p Hp w doc Hdoc) in Hat.
    destruct (is_dir _); [|discriminate Hat].
    assert (w1 = w) as -> by congruence. now rewrite app_nil_r.
Qed.

Lemma process_one_fallback_calls_other T p q w :
  pair_names q -> q.2 <> p.2 ->
  fallback_calls p (trace (final (process_one T q w)))
  = fallback_calls p (trace w).
Proof.
  intros Hq Hne. rewrite (process_one_final_trace T q w Hq), fallback_calls_app.
  destruct (attempt T q w) as [[] w1|]; [destruct (Fs.rename _ _ _)| |];
    unfold fallback_calls; cbn [List.filter];
    try rewrite (is_sips_for_other p q Hne);
    cbn [List.filter is_sips_for length]; lia.
Qed.

Lemma for_each_fallback_calls_other T p l w :
  (forall q, In q l -> In q sizes /\ q.2 <> p.2) ->
  fallback_calls p (trace (final (for_each l (process_one T) w)))
  = fallback_calls p (trace w).
Proof.
  revert w. induction l as [|q l IH]; intros w Hl; [reflexivity|].
  destruct (Hl q (or_introl eq_refl)) as [Hq Hne].
  rewrite <- (process_one_fallback_calls_other T p q w (sizes_names q Hq) Hne).
  rewrite for_each_cons.
  destruct (process_one T q w) as [[] w'|e w']; [|reflexivity].
  cbn [final]. apply IH. intros q' Hq'. apply Hl. now right.
Qed.

Lemma bundle_fallback_calls T p w :
  fallback_calls p (trace (final (bundle T w))) = fallback_calls p (trace w).
Proof.
  rewrite bundle_eq. cbv zeta.
  destruct (present _); cbn [final trace]; rewrite fallback_calls_app;
    unfold fallback_calls; cbn [List.filter is_sips_for length]; lia.
Qed.

Lemma filenames_distinct : List.NoDup (map snd sizes).
Proof.
  apply NoDup_ListNoDup, (bool_decide_unpack _). vm_compute. reflexivity.
Qed.

Lemma split_distinct pre p post q :
  sizes = pre ++ p :: post -> In q pre \/ In q post ->
  In q sizes /\ q.2 <> p.2.
Proof.
  intros Hsplit Hq. split.
  - rewrite Hsplit. apply in_or_app. destruct Hq; [now left|right; now right].
  - pose proof filenames_distinct as Hnd.
    rewrite Hsplit, map_app in Hnd. cbn [map] in Hnd.
    apply NoDup_remove_2 in Hnd. intros Heq. apply Hnd.
    apply in_or_app. rewrite <- Heq.
    destruct Hq as [Hq|Hq]; [left|right]; now apply in_map.
Qed.

Lemma before_Ok_inv T pre w wp :
  before T pre w = Ok tt wp ->
  exists w0, prepare w = Ok tt w0 /\ for_each pre (process_one T) w0 = Ok tt wp.
Proof.
  unfold before, bind. destruct (prepare w) as [[] w0|]; [|discriminate]. eauto.
Qed.

(** The run, seen from the start of one iteration. *)
Lemma run_from T d pre p post wp :
  sizes = pre ++ p :: post ->
  before T pre (World d []) = Ok tt wp ->
  run T d
  = match process_one T p wp with
    | Ok _ w' =>
        match for_each post (process_one T) w' with
        | Ok _ w'' => bundle T w''
        | Raised e x => Raised e x
        end
    | Raised e x => Raised e x
    end.
Proof.
  intros Hsplit (w0 & Hprep & Hpre)%before_Ok_inv.
  unfold run. rewrite main_generate, generate_eq, Hprep, Hsplit.
  rewrite for_each_app, Hpre, for_each_cons.
  destruct (process_one T p wp) as [[] w'|]; reflexivity.
Qed.

(** Over the whole run the number of [sips] commands for a pair follows
    the answer that the pair's iteration got from its existence test. *)
Lemma fallback_calls_by_test (T : tools) (d : gmap string Fs.node)
    (pre post : list (Z * string)) (p : Z * string)
    (wp w1 : world) (found : bool) :
  sizes = pre ++ p :: post ->
  before T pre (World d []) = Ok tt wp ->
  attempt T p wp = Ok found w1 ->
  fallback_calls p (trace (final (run T d))) = if found then 0%nat else 1%nat.
Proof.
  intros Hsplit Hbefore Hat.
  assert (Hin : In p sizes)
    by (rewrite Hsplit; apply in_or_app; right; now left).
  pose proof (sizes_names p Hin) as Hp.
  assert (Hpre : fallback_calls p (trace wp) = 0%nat).
  { destruct (before_Ok_inv T pre _ _ Hbefore) as (w0 & Hprep & Hloop).
    change wp with (final (Ok tt wp)). rewrite <- Hloop.
    rewrite for_each_fallback_calls_other
      by (intros q Hq; apply (split_distinct pre p post q Hsplit); now left).
    rewrite prepare_eq in Hprep. cbn [files trace] in Hprep.
    destruct (d !! iconset) as [[]|]; [discriminate Hprep| |];
      injection Hprep as <-; reflexivity. }
  assert (Hstep : fallback_calls p (trace (final (process_one T p wp)))
                  = if found then 0%nat else 1%nat).
  { rewrite (process_one_final_trace T p wp Hp), Hat, fallback_calls_app, Hpre.
    destruct found; [destruct (Fs.rename _ _ _)|];
      unfold fallback_calls; cbn [List.filter];
      try rewrite (is_sips_for_self p);
      cbn [List.filter is_sips_for length]; reflexivity. }
  rewrite (run_from T d pre p post wp Hsplit Hbefore), <- Hstep.
  destruct (process_one T p wp) as [[] w'|e x]; [|reflexivity].
  cbn [final].
  rewrite <- (for_each_fallback_calls_other T p post w')
    by (intros q Hq; apply (split_distinct pre p post q Hsplit); now right).
  destruct (for_each post (process_one T) w') as [[] w''|e x]; [|reflexivity].
  apply bundle_fallback_calls.
Qed.

(** ** What is printed at the end *)

Lemma created_not_closing filename :
  created filename <> msg_failure /\ created filename <> msg_success.
Proof. split; discriminate. Qed.

(** Neither closing line is printed before line 66. *)
Lemma generate_final_quiet T d :
  ~ In (Printed msg_failure) (trace (final (generate T (World d [])))) /\
  ~ In (Printed msg_success) (trace (final (generate T (World d [])))).
Proof.
  set (quiet := fun w : world =>
         ~ In (Printed msg_failure) (trace w) /\
         ~ In (Printed msg_success) (trace w)).
  change (quiet (final (generate T (World d [])))).
  assert (Hstep : forall p w, In p sizes -> quiet w ->
            quiet (final (process_one T p w))).
  { intros p w Hin [Hf Hs]. unfold quiet.
    rewrite (process_one_final_trace T p w (sizes_names p Hin)).
    destruct (created_not_closing p.2) as [Hcf Hcs].
    split; intros [H|H]%in_app_or; try contradiction;
      (destruct (attempt T p w) as [[] ?|];
       [destruct (Fs.rename _ _ _)| |]; simpl in H;
       repeat (destruct H as [H|H]; [try discriminate H; congruence|]);
       destruct H). }
  assert (Hloop : forall l w, (forall q, In q l -> In q sizes) -> quiet w ->
            quiet (final (for_each l (process_one T) w))).
  { induction l as [|p l IH]; intros w Hl Hw; [exact Hw|].
    rewrite for_each_cons.
    pose proof (Hstep p w (Hl p (or_introl eq_refl)) Hw) as Hw1.
    destruct (process_one T p w) as [[] w1|e w1]; [|exact Hw1].
    apply IH; [intros q Hq; apply Hl; now right|exact Hw1]. }
  rewrite generate_eq, prepare_eq. cbn [files trace].
  destruct (d !! iconset) as [[x|sub]|].
  - split; intros [].
  - apply Hloop; [auto|]. split; intros [H|[]]; discriminate H.
  - apply Hloop; [auto|]. split; intros [H|[]]; discriminate H.
Qed.

(** C7 (as the code has it): once the run has reached line 66 it ends
    normally with exit status 0 whether or not the artifact exists; when
    the artifact is missing then, the last thing printed is the failure
    line (and the success line is not printed).  A run stopped earlier by
    an exception prints no failure line and exits with status 1.  From a
    tidy working directory line 66 is always reached. *)
Theorem failure_is_only_printed (T : tools) (d : gmap string Fs.node) :
  (forall w1, generate T (World d []) = Ok tt w1 ->
     exists w,
       run T d = Ok tt w /\
       exit_status (run T d) = 0 /\
       (exists_at icns w = false ->
          last (trace w) = Some (Printed "✗ Failed to create icon") /\
          ~ In (Printed msg_success) (trace w)) /\
       (exists_at icns w = true ->
          In (Printed "✓ Icon created successfully: Aranet4.icns") (trace w) /\
          ~ In (Printed msg_failure) (trace w))) /\
  (forall e w1, generate T (World d []) = Raised e w1 ->
     run T d = Raised e w1 /\
     exit_status (run T d) = 1 /\
     ~ In (Printed msg_failure) (trace w1)) /\
  (tidy d = true -> exists w1, generate T (World d []) = Ok tt w1).
Proof.
  pose proof (generate_final_quiet T d) as [Hqf Hqs].
  split; [|split].
  - intros w1 Hgen. rewrite Hgen in Hqf, Hqs. cbn [final] in Hqf, Hqs.
    destruct (bundle_completes T w1) as [w Hbundle].
    assert (Hrun : run T d = Ok tt w)
      by (unfold run; now rewrite main_generate, Hgen).
    exists w. split; [exact Hrun|]. split; [now rewrite Hrun|].
    rewrite exists_at_top by reflexivity.
    destruct (bundle_outcome T w1 w Hbundle)
      as [_ [(Hic & _ & ->) | (Hic & _ & ->)]]; rewrite Hic.
    + split; [discriminate|]. intros _. split.
      * apply in_or_app. right. simpl. auto.
      * intros [H|H]%in_app_or; [contradiction|].
        simpl in H. repeat (destruct H as [H|H]; [discriminate H|]). destruct H.
    + split; [|discriminate]. intros _. split.
      * now rewrite last_app.
      * intros [H|H]%in_app_or; [contradiction|].
        simpl in H. repeat (destruct H as [H|H]; [discriminate H|]). destruct H.
  - intros e w1 Hgen. rewrite Hgen in Hqf. cbn [final] in Hqf.
    assert (Hrun : run T d = Raised e w1)
      by (unfold run; now rewrite main_generate, Hgen).
    split; [exact Hrun|]. split; [now rewrite Hrun|exact Hqf].
  - intros Htidy. destruct (generate_completes T d Htidy) as (w1 & Hgen & _).
    eauto.
Qed.

Lemma failure_is_only_printed_witness :
  exists w,
    run no_tools {[ "temp_16.svg.png"%string := Fs.Dir ∅ ]} = Ok tt w /\
    exit_status (run no_tools {[ "temp_16.svg.png"%string := Fs.Dir ∅ ]}) = 0 /\
    last (trace w) = Some (Printed "✗ Failed to create icon").
Proof.
  destruct (failure_is_only_printed no_tools
              {[ "temp_16.svg.png"%string := Fs.Dir ∅ ]}) as (Hreached & _ & _).
  destruct (Hreached (final (generate no_tools
                               (World {[ "temp_16.svg.png"%string := Fs.Dir ∅ ]} []))))
    as (w & Hw & Hexit & Hfail & _).
  - vm_compute. reflexivity.
  - exists w. split; [exact Hw|]. split; [exact Hexit|].
    apply Hfail. unfold run in Hw. vm_compute in Hw. injection Hw as <-.
    reflexivity.
Defined.

(** C7, refuted as stated: when [Aranet4.iconset] is a regular file the
    run ends without the artifact, nothing at all has been printed, and
    the exit status is 1. *)
Lemma no_failure_line_after_exception :
  exists_at icns (final (run no_tools {[ iconset := Fs.File "in the way" ]}))
  = false /\
  trace (final (run no_tools {[ iconset := Fs.File "in the way" ]})) = [] /\
  exit_status (run no_tools {[ iconset := Fs.File "in the way" ]}) = 1 /\
  ~ (exists_at icns (final (run no_tools {[ iconset := Fs.File "in the way" ]}))
     = false ->
     In (Printed msg_failure)
        (trace (final (run no_tools {[ iconset := Fs.File "in the way" ]}))) /\
     exit_status (run no_tools {[ iconset := Fs.File "in the way" ]}) = 0).
Proof.
  split; [vm_compute; reflexivity|].
  split; [vm_compute; reflexivity|].
  split; [vm_compute; reflexivity|].
  intros H. destruct H as [_ H]; [vm_compute; reflexivity|].
  vm_compute in H. discriminate H.
Qed.

(** What the existence test of line 56 answers: whether a file is at the
    thumbnail's path, [qlmanage]'s own or an older one. *)
Lemma attempt_thumbnail_there T p w doc :
  pair_names p ->
  svg_content p.1 = inr doc ->
  is_dir (files w !! svg_path p.1) = false ->
  attempt T p w = Ok (thumbnail_there T p doc w) (after_qlmanage T p doc w) /\
  exists_at (temp_png p.1) (after_qlmanage T p doc w)
  = thumbnail_there T p doc w.
Proof.
  intros Hp Hdoc Hdir.
  assert (Hthere : present (exec T (Qlmanage p.1 (svg_path p.1))
                              (<[svg_path p.1 := Fs.File doc]> (files w))
                            !! temp_png p.1)
                   = thumbnail_there T p doc w).
  { unfold thumbnail_there. rewrite (exec_qlmanage T p Hp).
    assert (Hd1 : (<[svg_path p.1 := Fs.File doc]> (files w)) !! temp_png p.1
                  = files w !! temp_png p.1)
      by (apply lookup_insert_ne, svg_not_tmp).
    destruct (qlmanage _ _ _ _) as [data|]; cbn [present];
      [|now rewrite Hd1, orb_false_r].
    rewrite orb_true_r, Hd1.
    destruct (files w !! temp_png p.1) as [[x|sub]|] eqn:Htmp; cbn [is_dir].
    - now rewrite lookup_insert_eq.
    - now rewrite Hd1.
    - now rewrite lookup_insert_eq. }
  split.
  - rewrite (attempt_eq T p Hp w doc Hdoc), Hdir. cbv zeta.
    now rewrite Hthere.
  - rewrite exists_at_top by apply (names_tmp _ Hp). exact Hthere.
Qed.

(** C6 (as the code has it): in a run, for a pair whose iteration gets as
    far as [qlmanage], [sips] is spawned exactly once when no file is at
    [temp_<size>.svg.png] after [qlmanage] has returned, and not at all
    when a file is there, be it the thumbnail [qlmanage] wrote or one
    that was lying there before. *)
Theorem fallback_once_iff_no_thumbnail_file (T : tools)
    (d : gmap string Fs.node) (pre post : list (Z * string))
    (p : Z * string) (wp : world) :
  sizes = pre ++ p :: post ->
  before T pre (World d []) = Ok tt wp ->
  is_dir (files wp !! svg_path p.1) = false ->
  exists doc,
    svg_content p.1 = inr doc /\
    exists_at (temp_png p.1) (after_qlmanage T p doc wp)
    = (present (files wp !! temp_png p.1)
       || present (qlmanage T p.1 (svg_path p.1)
                     (<[svg_path p.1 := Fs.File doc]> (files wp)))) /\
    fallback_calls p (trace (final (run T d)))
    = if exists_at (temp_png p.1) (after_qlmanage T p doc wp)
      then 0%nat else 1%nat.
Proof.
  intros Hsplit Hbefore Hdir.
  assert (Hin : In p sizes)
    by (rewrite Hsplit; apply in_or_app; right; now left).
  pose proof (sizes_names p Hin) as Hp.
  destruct (names_content _ Hp) as [doc Hdoc]. exists doc.
  destruct (attempt_thumbnail_there T p wp doc Hp Hdoc Hdir) as [Hat Hthere].
  split; [exact Hdoc|]. split; [exact Hthere|]. rewrite Hthere.
  apply (fallback_calls_by_test T d pre post p wp _ _ Hsplit Hbefore Hat).
Qed.

Lemma fallback_once_iff_no_thumbnail_file_witness :
  fallback_calls (32, "icon_32x32.png"%string)
    (trace (final (run sips_only ∅)))
  = 1%nat.
Proof.
  destruct (fallback_once_iff_no_thumbnail_file sips_only ∅
              (firstn 2 sizes) (skipn 3 sizes) (32, "icon_32x32.png"%string)
              (final (before sips_only (firstn 2 sizes) (World ∅ []))))
    as (doc & Hdoc & _ & Hcalls).
  - reflexivity.
  - vm_compute. reflexivity.
  - vm_compute. reflexivity.
  - rewrite Hcalls.
    assert (doc = match svg_content 32 with inr c => c | inl _ => doc end)
      as -> by (cbn [fst] in Hdoc; now rewrite Hdoc).
    vm_compute. reflexivity.
Defined.

(** C6, refuted as stated: [qlmanage] produces no output file for any
    pair, the run completes, and yet [sips] is not spawned for the first
    pair, because a thumbnail from before the run is at
    [temp_16.svg.png]. *)
Lemma fallback_skipped_for_leftover_thumbnail :
  (forall size src d, qlmanage sips_only size src d = None) /\
  exit_status (run sips_only
                 {[ "temp_16.svg.png"%string := Fs.File "left behind" ]}) = 0 /\
  fallback_calls (16, "icon_16x16.png"%string)
    (trace (final (run sips_only
                     {[ "temp_16.svg.png"%string := Fs.File "left behind" ]})))
  <> 1%nat.
Proof.
  split; [reflexivity|]. split; [vm_compute; reflexivity|].
  vm_compute. discriminate.
Qed.

Lemma skipn_length_app {A} (l1 l2 : list A) : skipn (length l1) (l1 ++ l2) = l2.
Proof. now rewrite skipn_app, skipn_all, Nat.sub_diag. Qed.

(** C10 (as the code has it): in an iteration that gets as far as
    [qlmanage], the line [Created <filename>] is printed exactly when a
    file is at [temp_<size>.svg.png] after [qlmanage] has returned (the
    thumbnail it wrote, or one lying there from before) and [os.rename]
    then succeeds; the bitmap is staged when the line is printed.  When
    [os.rename] raises, nothing is printed and the loop stops there.
    When no file is at that path the fallback is taken: nothing is
    printed, what [sips] did is not tested, the iteration ends normally,
    a pair for which [sips] wrote nothing leaves the staging directory as
    it was, and the loop goes on with the next pair. *)
Theorem created_iff_thumbnail_moved (T : tools) (p : Z * string) (w : world) :
  In p sizes ->
  is_dir (files w !! svg_path p.1) = false ->
  exists (doc : string) (there : bool),
    svg_content p.1 = inr doc /\
    there = exists_at (temp_png p.1) (after_qlmanage T p doc w) /\
    there = (present (files w !! temp_png p.1)
             || present (qlmanage T p.1 (svg_path p.1)
                           (<[svg_path p.1 := Fs.File doc]> (files w)))) /\
    (In (Printed (created p.2)) (iteration_trace T p w)
     <-> there = true /\ exit_status (process_one T p w) = 0) /\
    (there = true -> exit_status (process_one T p w) = 0 ->
       iteration_trace T p w
       = [Spawned (Qlmanage p.1 (svg_path p.1)); Printed (created p.2)] /\
       exists_at (png_path p.2) (final (process_one T p w)) = true) /\
    (there = true -> exit_status (process_one T p w) = 1 ->
       iteration_trace T p w = [Spawned (Qlmanage p.1 (svg_path p.1))] /\
       forall rest,
         for_each (p :: rest) (process_one T) w = process_one T p w) /\
    (there = true -> settled (files w) ->
       exit_status (process_one T p w) = 0) /\
    (there = false ->
       exit_status (process_one T p w) = 0 /\
       iteration_trace T p w
       = [Spawned (Qlmanage p.1 (svg_path p.1)); Spawned (sips_command p)] /\
       (sips T p.1 (png_path p.2) (svg_path p.1)
          (files (after_qlmanage T p doc w)) = None ->
        files (final (process_one T p w)) !! iconset = files w !! iconset) /\
       forall rest,
         for_each (p :: rest) (process_one T) w
         = for_each rest (process_one T) (final (process_one T p w))).
Proof.
  intros Hin Hdir. pose proof (sizes_names p Hin) as Hp.
  destruct (names_content _ Hp) as [doc Hdoc].
  destruct (attempt_thumbnail_there T p w doc Hp Hdoc Hdir) as [Hat Hthere].
  exists doc, (exists_at (temp_png p.1) (after_qlmanage T p doc w)).
  split; [exact Hdoc|]. split; [reflexivity|].
  split; [exact Hthere|].
  rewrite Hthere. unfold iteration_trace.
  destruct (thumbnail_there T p doc w) eqn:Hcase.
  - rewrite (process_one_found T p Hp _ _ Hat).
    destruct (Fs.rename _ _ _) as [e|d3] eqn:Hmv; cbn [final trace exit_status].
    + assert (Hevs : skipn (length (trace w)) (trace (after_qlmanage T p doc w))
                     = [Spawned (Qlmanage p.1 (svg_path p.1))])
        by (cbn [after_qlmanage trace]; apply skipn_length_app).
      rewrite Hevs.
      split; [split; [intros [H|[]]; discriminate H|intros [_ H]; discriminate H]|].
      split; [intros _ H; discriminate H|].
      split; [intros _ _; split; [reflexivity|]|].
      { intros rest. rewrite for_each_cons, (process_one_found T p Hp _ _ Hat), Hmv.
        reflexivity. }
      split; [|intros H; discriminate H].
      intros _ Hset. destruct (settled_step T p w Hin Hset) as (w' & Hrun & _).
      rewrite (process_one_found T p Hp _ _ Hat), Hmv in Hrun. discriminate Hrun.
    + assert (Hevs : skipn (length (trace w))
                       (trace (after_qlmanage T p doc w) ++ [Printed (created p.2)])
                     = [Spawned (Qlmanage p.1 (svg_path p.1)); Printed (created p.2)]).
      { cbn [after_qlmanage trace]. rewrite <- app_assoc. apply skipn_length_app. }
      rewrite Hevs.
      split; [split; [intros _; now split|intros _; right; now left]|].
      split.
      { intros _ _. split; [reflexivity|].
        apply rename_into_inv in Hmv as (n & sub & _ & _ & ->);
          [|apply temp_png_not_iconset].
        unfold exists_at, Fs.exists_. cbn [files].
        rewrite (names_png _ Hp), find_in.
        rewrite lookup_delete_ne by apply svg_path_not_iconset.
        now rewrite !lookup_insert_eq. }
      split; [intros _ H; discriminate H|].
      split; [reflexivity|intros H; discriminate H].
  - rewrite (process_one_fallback T p Hp _ _ Hat). cbn [final trace exit_status].
    assert (Hevs : skipn (length (trace w))
                     (trace (after_qlmanage T p doc w) ++ [Spawned (sips_command p)])
                   = [Spawned (Qlmanage p.1 (svg_path p.1)); Spawned (sips_command p)]).
    { cbn [after_qlmanage trace]. rewrite <- app_assoc. apply skipn_length_app. }
    rewrite Hevs.
    split; [split; [intros [H|[H|[]]]; discriminate H|intros [H _]; discriminate H]|].
    split; [intros H; discriminate H|].
    split; [intros H; discriminate H|].
    split; [intros H; discriminate H|].
    intros _. split; [reflexivity|]. split; [reflexivity|]. split.
    + intros Hnone. cbn [files].
      rewrite lookup_delete_ne by apply svg_path_not_iconset.
      rewrite (exec_sips T p Hp), Hnone.
      apply (attempt_other T p Hp _ _ _ _ Hat); apply not_eq_sym;
        [apply svg_path_not_iconset | apply temp_png_not_iconset].
    + intros rest.
      now rewrite for_each_cons, (process_one_fallback T p Hp _ _ Hat).
Qed.

Lemma created_iff_thumbnail_moved_witness :
  iteration_trace no_tools (16, "icon_16x16.png"%string)
    (World {[ iconset := Fs.Dir ∅ ]} [])
  = [Spawned (Qlmanage 16 "temp_16.svg");
     Spawned (Sips 16 "Aranet4.iconset/icon_16x16.png" "temp_16.svg")]
  /\ ~ In (Printed "Created icon_16x16.png")
         (iteration_trace no_tools (16, "icon_16x16.png"%string)
            (World {[ iconset := Fs.Dir ∅ ]} [])).
Proof.
  destruct (created_iff_thumbnail_moved no_tools (16, "icon_16x16.png"%string)
              (World {[ iconset := Fs.Dir ∅ ]} []))
    as (doc & there & _ & _ & Hthere & Hiff & _ & _ & _ & Hfallback).
  - now left.
  - vm_compute. reflexivity.
  - assert (Hno : there = false) by (rewrite Hthere; vm_compute; reflexivity).
    destruct (Hfallback Hno) as (_ & Hevs & _).
    split; [exact Hevs|].
    intros Hin. apply Hiff in Hin as [Hyes _]. congruence.
Defined.

(** C10, refuted as stated, in both directions.  With no programme
    producing anything, a thumbnail from before the run still earns its
    pair the [Created] line; and when [qlmanage] does produce the
    thumbnail but a directory has the bitmap's name, the thumbnail is
    there, no [Created] line is printed, and the run stops instead of
    going on. *)
Lemma created_line_not_tied_to_qlmanage :
  ((forall size src d, qlmanage no_tools size src d = None) /\
   In (Printed "Created icon_16x16.png")
      (trace (final (run no_tools
                       {[ "temp_16.svg.png"%string := Fs.File "left behind" ]})))) /\
  (present (qlmanage all_tools 16 "temp_16.svg"
              {[ "temp_16.svg"%string :=
                   Fs.File match svg_content 16 with
                           | inr doc => doc
                           | inl _ => EmptyString
                           end ]}) = true /\
   exists_at "temp_16.svg.png"
     (final (run all_tools
               {[ iconset := Fs.Dir {[ "icon_16x16.png"%string := Fs.Dir ∅ ]} ]}))
   = true /\
   exit_status (run all_tools
                  {[ iconset := Fs.Dir {[ "icon_16x16.png"%string := Fs.Dir ∅ ]} ]})
   = 1 /\
   ~ In (Printed "Created icon_16x16.png")
        (trace (final (run all_tools
                  {[ iconset := Fs.Dir {[ "icon_16x16.png"%string := Fs.Dir ∅ ]} ]})))).
Proof.
  split; [split; [reflexivity|vm_compute; auto]|].
  split; [vm_compute; reflexivity|].
  split; [vm_compute; reflexivity|].
  split; [vm_compute; reflexivity|].
  intros H. vm_compute in H. destruct H as [H|[H|[]]]; discriminate H.
Qed.

(** ** The staging directory when every step succeeds *)

Lemma staged_Dir d sub : d !! iconset = Some (Fs.Dir sub) -> staged d = dom sub.
Proof. unfold staged. now intros ->. Qed.

Lemma exists_at_png p w :
  In p sizes ->
  exists_at (png_path p.2) w = bool_decide (p.2 ∈ staged (files w)).
Proof.
  intros Hin. unfold exists_at, Fs.exists_, staged.
  rewrite (names_png _ (sizes_names p Hin)), find_in.
  destruct (files w !! iconset) as [[x|sub]|];
    try (symmetry; apply bool_decide_eq_false, not_elem_of_empty).
  destruct (sub !! p.2) as [n|] eqn:Hn; symmetry.
  - apply bool_decide_eq_true, elem_of_dom. eauto.
  - apply bool_decide_eq_false. now rewrite not_elem_of_dom.
Qed.

(** A successful step adds the name of its pair to the staging
    directory and no other. *)
Lemma step_succeeds_staged T p w w' :
  In p sizes ->
  step_succeeds T p w = true ->
  process_one T p w = Ok tt w' ->
  is_dir (files w !! iconset) = true ->
  is_dir (files w' !! iconset) = true /\
  staged (files w') = {[ p.2 ]} ∪ staged (files w).
Proof.
  intros Hin Hok Hrun Hdir. pose proof (sizes_names p Hin) as Hp.
  destruct (process_one_Ok_cases T p Hp _ _ Hrun)
    as (found & w1 & Hat & Hcases).
  assert (Hsame : files w1 !! iconset = files w !! iconset).
  { apply (attempt_other T p Hp _ _ _ _ Hat); apply not_eq_sym;
      [apply svg_path_not_iconset | apply temp_png_not_iconset]. }
  unfold step_succeeds in Hok. rewrite Hat in Hok.
  destruct (files w !! iconset) as [[x|sub]|] eqn:Hsub; try discriminate Hdir.
  rewrite (staged_Dir (files w) sub Hsub).
  destruct Hcases as [(_ & n & sub1 & _ & Hsub1 & ->) | (-> & _ & ->)];
    cbn [files].
  - assert (sub1 = sub) as -> by congruence.
    erewrite staged_Dir
      by (rewrite lookup_delete_ne by apply svg_path_not_iconset;
          apply lookup_insert_eq).
    rewrite lookup_delete_ne, lookup_insert_eq by apply svg_path_not_iconset.
    split; [reflexivity|]. apply dom_insert_L.
  - cbn [orb] in Hok.
    rewrite (exec_sips T p Hp), Hsame.
    destruct (sips _ _ _ _ _) as [data|]; [|discriminate Hok].
    destruct (is_dir (sub !! p.2)) eqn:Hentry.
    + erewrite staged_Dir
        by (rewrite lookup_delete_ne by apply svg_path_not_iconset;
            rewrite Hsame; reflexivity).
      rewrite lookup_delete_ne, Hsame by apply svg_path_not_iconset.
      split; [reflexivity|].
      symmetry. apply subseteq_union_1_L, singleton_subseteq_l.
      apply elem_of_dom. destruct (sub !! p.2); [eauto|discriminate Hentry].
    + erewrite staged_Dir
        by (rewrite lookup_delete_ne by apply svg_path_not_iconset;
            apply lookup_insert_eq).
      rewrite lookup_delete_ne, lookup_insert_eq by apply svg_path_not_iconset.
      split; [reflexivity|]. apply dom_insert_L.
Qed.

Lemma steps_succeed_staged T l w :
  (forall q, In q l -> In q sizes) ->
  steps_succeed T l w = true ->
  is_dir (files w !! iconset) = true ->
  exists w',
    for_each l (process_one T) w = Ok tt w' /\
    is_dir (files w' !! iconset) = true /\
    staged (files w') = list_to_set (map snd l) ∪ staged (files w).
Proof.
  revert w. induction l as [|p l IH]; intros w Hl Hok Hdir.
  - exists w. split; [reflexivity|]. split; [exact Hdir|].
    cbn [map list_to_set]. now rewrite union_empty_l_L.
  - cbn [steps_succeed] in Hok. apply andb_true_iff in Hok as [Hstep Hrest].
    rewrite for_each_cons.
    destruct (process_one T p w) as [[] w1|] eqn:Hrun; [|discriminate Hrest].
    destruct (step_succeeds_staged T p w w1 (Hl p (or_introl eq_refl))
                Hstep Hrun Hdir) as [Hdir1 Hdom1].
    destruct (IH w1 (fun q Hq => Hl q (or_intror Hq)) Hrest Hdir1)
      as (w' & Hloop & Hdir' & Hdom').
    exists w'. split; [exact Hloop|]. split; [exact Hdir'|].
    rewrite Hdom', Hdom1. cbn [map list_to_set snd].
    rewrite (assoc_L (∪)). f_equal. apply (comm_L (∪)).
Qed.

(** C3 (as the code has it): in a run in which every generation step
    succeeds, when the loop is over and [iconutil] is about to be spawned
    the staging directory holds an entry for every configured pair: the
    ten configured names, next to whatever was in the directory before
    the run, so exactly ten when there was no such directory.  They do
    not outlast a successful bundling: once the artifact exists the
    script has deleted the staging directory with all of them. *)
Theorem bitmaps_staged_before_bundling (T : tools) (d : gmap string Fs.node) :
  generation_succeeds T d = true ->
  exists w1,
    generate T (World d []) = Ok tt w1 /\
    bitmaps_present w1 = true /\
    staged (files w1) = list_to_set (map snd sizes) ∪ staged d /\
    (d !! iconset = None -> size (staged (files w1)) = 10%nat) /\
    (forall w, run T d = Ok tt w -> exists_at icns w = true ->
       forall p, In p sizes -> exists_at (png_path p.2) w = false).
Proof.
  unfold generation_succeeds. intros Hok.
  destruct (prepare (World d [])) as [[] w0|] eqn:Hprep; [|discriminate Hok].
  assert (H0 : is_dir (files w0 !! iconset) = true /\ staged (files w0) = staged d).
  { rewrite prepare_eq in Hprep. cbn [files trace] in Hprep. unfold staged.
    destruct (d !! iconset) as [[x|sub]|] eqn:Hd; [discriminate Hprep| |].
    - assert (w0 = World d ([] ++ [Printed msg_creating])) as -> by congruence.
      cbn [files]. now rewrite Hd.
    - assert (w0 = World (<[iconset := Fs.Dir ∅]> d) ([] ++ [Printed msg_creating]))
        as -> by congruence.
      cbn [files]. rewrite lookup_insert_eq. split; [reflexivity|].
      apply dom_empty_L. }
  destruct H0 as [Hdir0 Hdom0].
  destruct (steps_succeed_staged T sizes w0 (fun q Hq => Hq) Hok Hdir0)
    as (w1 & Hloop & Hdir1 & Hdom1).
  assert (Hgen : generate T (World d []) = Ok tt w1)
    by now rewrite generate_eq, Hprep.
  exists w1. split; [exact Hgen|]. rewrite Hdom0 in Hdom1.
  split; [|split; [exact Hdom1|split]].
  - unfold bitmaps_present. apply forallb_forall. intros q Hq.
    rewrite (exists_at_png q w1 Hq). apply bool_decide_eq_true.
    rewrite Hdom1. apply elem_of_union_l, elem_of_list_to_set.
    apply list_elem_of_In, in_map, Hq.
  - intros Hnone. rewrite Hdom1. unfold staged. rewrite Hnone.
    rewrite union_empty_r_L, size_list_to_set; [reflexivity|].
    apply NoDup_ListNoDup, filenames_distinct.
  - intros w (w1' & Hgen' & Hbundle)%run_Ok_inv Hicns p Hin.
    rewrite exists_at_top in Hicns by reflexivity.
    rewrite (exists_at_png p w Hin). apply bool_decide_eq_false.
    destruct (bundle_outcome T w1' w Hbundle)
      as [_ [(_ & Hgone & _) | (Hno & _)]]; [|congruence].
    unfold staged. rewrite Hgone. apply not_elem_of_empty.
Qed.

Lemma bitmaps_staged_before_bundling_witness :
  exists w1,
    generate all_tools (World ∅ []) = Ok tt w1 /\
    bitmaps_present w1 = true /\
    size (staged (files w1)) = 10%nat.
Proof.
  assert (Hok : generation_succeeds all_tools ∅ = true)
    by (vm_compute; reflexivity).
  destruct (bitmaps_staged_before_bundling all_tools ∅ Hok)
    as (w1 & Hgen & Hall & _ & Hten & _).
  exists w1. split; [exact Hgen|]. split; [exact Hall|].
  apply Hten. apply lookup_empty.
Defined.

(** C3, refuted as stated: every generation step succeeds and the run
    completes, yet after the run the staging directory holds none of the
    bitmaps (it is gone). *)
Lemma bitmaps_not_staged_after_run :
  ~ (generation_succeeds all_tools ∅ = true ->
     exit_status (run all_tools ∅) = 0 ->
     forall p, In p sizes ->
       exists_at (png_path p.2) (final (run all_tools ∅)) = true).
Proof.
  intros H.
  assert (Hok : generation_succeeds all_tools ∅ = true)
    by (vm_compute; reflexivity).
  assert (Hexit : exit_status (run all_tools ∅) = 0)
    by (vm_compute; reflexivity).
  specialize (H Hok Hexit (16, "icon_16x16.png"%string) (or_introl eq_refl)).
  vm_compute in H. discriminate H.
Qed.

(** ** Running the script twice *)

Section Deterministic.
Context (T : tools) (HT : input_determined T).

Lemma qlmanage_canonical p doc d :
  pair_names p ->
  qlmanage T p.1 (svg_path p.1) (<[svg_path p.1 := Fs.File doc]> d)
  = qlmanage T p.1 (svg_path p.1) {[ svg_path p.1 := Fs.File doc ]}.
Proof.
  intros Hp. destruct HT as (Hq & _ & _). apply Hq.
  rewrite (names_svg _ Hp), !find_top.
  now rewrite lookup_insert_eq, lookup_singleton_eq.
Qed.

Lemma sips_canonical p doc d :
  pair_names p ->
  d !! svg_path p.1 = Some (Fs.File doc) ->
  sips T p.1 (png_path p.2) (svg_path p.1) d
  = sips T p.1 (png_path p.2) (svg_path p.1) {[ svg_path p.1 := Fs.File doc ]}.
Proof.
  intros Hp Hd. destruct HT as (_ & Hs & _). apply Hs.
  rewrite (names_svg _ Hp), !find_top.
  now rewrite Hd, lookup_singleton_eq.
Qed.

Lemma iconutil_canonical sub d :
  d !! iconset = Some (Fs.Dir sub) ->
  iconutil T iconset icns d
  = iconutil T iconset icns {[ iconset := Fs.Dir sub ]}.
Proof.
  intros Hd. destruct HT as (_ & _ & Hi). apply Hi.
  rewrite resolve_iconset, !find_top.
  now rewrite Hd, lookup_singleton_eq.
Qed.

(** One iteration, for deterministic programmes, on the staging
    directory. *)
Lemma ready_step p w sub :
  In p sizes -> ready (files w) ->
  files w !! iconset = Some (Fs.Dir sub) ->
  exists w',
    process_one T p w = Ok tt w' /\ ready (files w') /\
    files w' !! iconset = Some (Fs.Dir (stage_one T p sub)).
Proof.
  intros Hin [Hset Hnotmp] Hsub.
  pose proof (sizes_names p Hin) as Hp.
  destruct (settled_step T p w Hin Hset) as (w' & Hrun & Hset').
  exists w'. split; [exact Hrun|]. split.
  { split; [exact Hset'|]. intros q Hq.
    destruct (decide (temp_png q.1 = temp_png p.1)) as [->|Hne];
      [apply (process_one_tmp_gone T p Hp _ _ Hrun)|].
    rewrite (process_one_other T p Hp _ _ _ Hrun);
      [apply Hnotmp, Hq | | exact Hne | apply temp_png_not_iconset].
    apply (names_tmp_svg _ (sizes_names q Hq)), Hin. }
  destruct (names_content _ Hp) as [doc Hdoc].
  destruct (process_one_Ok_cases T p Hp _ _ Hrun)
    as (found & w1 & Hat & Hcases).
  destruct (attempt_Ok_inv T p Hp _ _ _ Hat)
    as (doc' & Hdoc' & _ & Hfiles & _ & _ & Hsvg).
  assert (doc' = doc) as -> by congruence.
  assert (Hsame : files w1 !! iconset = Some (Fs.Dir sub)).
  { rewrite <- Hsub.
    apply (attempt_other T p Hp _ _ _ _ Hat); apply not_eq_sym;
      [apply svg_path_not_iconset | apply temp_png_not_iconset]. }
  assert (Htmp : files w1 !! temp_png p.1
                 = match qlmanage T p.1 (svg_path p.1)
                           {[ svg_path p.1 := Fs.File doc ]} with
                   | Some data => Some (Fs.File data)
                   | None => None
                   end).
  { rewrite Hfiles, (exec_qlmanage T p Hp), (qlmanage_canonical p doc _ Hp).
    assert (Hd1 : (<[svg_path p.1 := Fs.File doc]> (files w)) !! temp_png p.1 = None)
      by (rewrite lookup_insert_ne by apply svg_not_tmp; apply Hnotmp, Hin).
    destruct (qlmanage _ _ _ _) as [data|]; [|exact Hd1].
    rewrite Hd1. cbn [is_dir]. apply lookup_insert_eq. }
  unfold stage_one, bitmap_of. rewrite Hdoc. cbv zeta.
  destruct Hcases as [(_ & n & sub1 & Hn & Hsub1 & ->) | (_ & Hno & ->)];
    cbn [files]; rewrite lookup_delete_ne by apply svg_path_not_iconset.
  - assert (sub1 = sub) as -> by congruence.
    rewrite lookup_insert_eq. rewrite Hn in Htmp.
    destruct (qlmanage _ _ _ _) as [data|]; [|discriminate Htmp].
    now injection Htmp as ->.
  - rewrite Hno in Htmp.
    destruct (qlmanage _ _ _ _) as [data|]; [discriminate Htmp|].
    rewrite (exec_sips T p Hp), (sips_canonical p doc _ Hp Hsvg), Hsame.
    destruct (sips _ _ _ _ _) as [data|]; [|exact Hsame].
    destruct Hset as [(sub' & Hsub' & Hentries) _].
    assert (sub' = sub) as -> by congruence.
    rewrite (Hentries p Hin). apply lookup_insert_eq.
Qed.

Lemma ready_loop l w sub :
  (forall q, In q l -> In q sizes) ->
  ready (files w) ->
  files w !! iconset = Some (Fs.Dir sub) ->
  exists w',
    for_each l (process_one T) w = Ok tt w' /\ ready (files w') /\
    files w' !! iconset = Some (Fs.Dir (stage T l sub)).
Proof.
  revert w sub. induction l as [|p l IH]; intros w sub Hl Hready Hsub.
  - exists w. split; [reflexivity|]. split; assumption.
  - destruct (ready_step p w sub (Hl p (or_introl eq_refl)) Hready Hsub)
      as (w1 & Hrun & Hready1 & Hsub1).
    destruct (IH w1 _ (fun q Hq => Hl q (or_intror Hq)) Hready1 Hsub1)
      as (w' & Hloop & Hready' & Hsub').
    exists w'. rewrite for_each_cons, Hrun. split; [exact Hloop|].
    split; assumption.
Qed.

(** What the loop adds does not depend on what was staged before. *)
Lemma stage_union l sub : stage T l sub = stage T l ∅ ∪ sub.
Proof.
  revert sub. induction l as [|p l IH]; intros sub; cbn [stage].
  - now rewrite (left_id_L ∅ (∪)).
  - rewrite (IH (stage_one T p sub)), (IH (stage_one T p ∅)).
    rewrite <- (assoc_L (∪)). f_equal. unfold stage_one.
    destruct (bitmap_of T p) as [n|]; [|now rewrite (left_id_L ∅ (∪))].
    rewrite <- insert_union_l. now rewrite (left_id_L ∅ (∪)).
Qed.

Lemma stage_again l : stage T l (stage T l ∅) = stage T l ∅.
Proof. rewrite stage_union. apply (idemp_L (∪)). Qed.

Lemma bundled_again a sub : bundled T (bundled T a sub) sub = bundled T a sub.
Proof.
  unfold bundled. destruct (iconutil _ _ _ _) as [data|]; [|reflexivity].
  destruct (is_dir a) eqn:Ha; [now rewrite Ha|reflexivity].
Qed.

End Deterministic.

Lemma tidy_intro d :
  match d !! iconset with
  | Some (Fs.File _) => False
  | Some (Fs.Dir sub) => forall q, In q sizes -> is_dir (sub !! q.2) = false
  | None => True
  end ->
  (forall q, In q sizes ->
     is_dir (d !! svg_path q.1) = false /\ is_dir (d !! temp_png q.1) = false) ->
  tidy d = true.
Proof.
  intros Hset Hfiles. unfold tidy. apply andb_true_iff. split.
  - destruct (d !! iconset) as [[x|sub]|]; [destruct Hset| |reflexivity].
    apply forallb_forall. intros q Hq. now rewrite (Hset q Hq).
  - apply forallb_forall. intros q Hq.
    destruct (Hfiles q Hq) as [-> ->]. reflexivity.
Qed.

Lemma clean_start_inv d :
  clean_start d = true ->
  d !! iconset = None /\
  forall q, In q sizes ->
    d !! temp_png q.1 = None /\ is_dir (d !! svg_path q.1) = false.
Proof.
  unfold clean_start. intros [Hset Hfiles]%andb_true_iff. split.
  - destruct (d !! iconset); [discriminate Hset|reflexivity].
  - rewrite forallb_forall in Hfiles. intros q Hq.
    specialize (Hfiles q Hq). apply andb_true_iff in Hfiles as [Ht Hs].
    split; [|now apply negb_true_iff].
    destruct (d !! temp_png q.1); [discriminate Ht|reflexivity].
Qed.

(** A run with deterministic programmes, from a tidy directory without
    waiting thumbnails: where it ends. *)
Lemma run_determined T d sub0 :
  input_determined T ->
  (d !! iconset = None /\ sub0 = ∅) \/ d !! iconset = Some (Fs.Dir sub0) ->
  tidy d = true ->
  (forall q, In q sizes -> d !! temp_png q.1 = None) ->
  exists w,
    run T d = Ok tt w /\
    files w !! icns = bundled T (d !! icns) (stage T sizes sub0) /\
    (files w !! iconset = None \/
     files w !! iconset = Some (Fs.Dir (stage T sizes sub0))) /\
    tidy (files w) = true /\
    (forall q, In q sizes -> files w !! temp_png q.1 = None).
Proof.
  intros HT Hsub0 Htidy Hnotmp.
  destruct (tidy_prepare d [] Htidy) as (w0 & Hprep & Hset0 & _ & Hother0).
  assert (Hstaging0 : files w0 !! iconset = Some (Fs.Dir sub0)).
  { rewrite prepare_eq in Hprep. cbn [files trace] in Hprep.
    destruct Hsub0 as [[Hnone ->] | Hdir].
    - rewrite Hnone in Hprep.
      assert (w0 = World (<[iconset := Fs.Dir ∅]> d) ([] ++ [Printed msg_creating]))
        as -> by congruence.
      apply lookup_insert_eq.
    - rewrite Hdir in Hprep.
      assert (w0 = World d ([] ++ [Printed msg_creating])) as -> by congruence.
      exact Hdir. }
  assert (Hready0 : ready (files w0)).
  { split; [exact Hset0|]. intros q Hq.
    rewrite Hother0 by apply temp_png_not_iconset. apply Hnotmp, Hq. }
  destruct (ready_loop T HT sizes w0 sub0 (fun q Hq => Hq) Hready0 Hstaging0)
    as (w1 & Hloop & [Hset1 Hnotmp1] & Hstaging1).
  assert (Hgen : generate T (World d []) = Ok tt w1)
    by now rewrite generate_eq, Hprep.
  pose proof (generate_icns T d w1 Hgen) as Hicns1.
  set (E := stage T sizes sub0) in *.
  set (d1 := exec T (Iconutil iconset icns) (files w1)).
  assert (Hicns : d1 !! icns = bundled T (d !! icns) E).
  { unfold d1, bundled. rewrite exec_iconutil.
    rewrite (iconutil_canonical T HT E _ Hstaging1), Hicns1.
    destruct (iconutil _ _ _ _) as [data|]; [|exact Hicns1].
    destruct (is_dir (d !! icns)); [exact Hicns1|apply lookup_insert_eq]. }
  assert (Hd1 : forall k, k <> icns -> d1 !! k = files w1 !! k)
    by (intros k Hk; apply exec_iconutil_other, Hk).
  assert (Hfiles1 : forall q, In q sizes ->
            is_dir (d1 !! svg_path q.1) = false /\
            is_dir (d1 !! temp_png q.1) = false).
  { intros q Hq. rewrite !Hd1
      by first [apply svg_path_not_icns | apply temp_png_not_icns].
    apply Hset1, Hq. }
  unfold run. rewrite main_generate, Hgen, bundle_eq. cbv zeta. fold d1.
  destruct (present (d1 !! icns)); eexists; (split; [reflexivity|]);
    cbn [files].
  - rewrite lookup_delete_ne by apply iconset_not_icns.
    split; [exact Hicns|]. split; [left; apply lookup_delete_eq|]. split.
    + apply tidy_intro; [now rewrite lookup_delete_eq|].
      intros q Hq. rewrite !lookup_delete_ne
        by first [apply not_eq_sym, svg_path_not_iconset
                 | apply not_eq_sym, temp_png_not_iconset].
      apply Hfiles1, Hq.
    + intros q Hq.
      rewrite lookup_delete_ne by (apply not_eq_sym, temp_png_not_iconset).
      rewrite Hd1 by apply temp_png_not_icns. apply Hnotmp1, Hq.
  - split; [exact Hicns|].
    assert (Hstaging : d1 !! iconset = Some (Fs.Dir E))
      by (rewrite Hd1 by apply iconset_not_icns; exact Hstaging1).
    split; [right; exact Hstaging|]. split.
    + apply tidy_intro; [|exact Hfiles1]. rewrite Hstaging.
      destruct Hset1 as [(sub & Hsub & Hentries) _].
      assert (sub = E) as -> by congruence. exact Hentries.
    + intros q Hq. rewrite Hd1 by apply temp_png_not_icns.
      apply Hnotmp1, Hq.
Qed.

(** C5 (as the code has it): with programmes that are functions of their
    inputs, and a working directory that holds nothing an earlier run
    could have left for the script to pick up, running the script twice
    leaves the same bundled artifact, byte for byte, as running it
    once. *)
Theorem rerun_same_artifact (T : tools) (d : gmap string Fs.node) :
  input_determined T ->
  clean_start d = true ->
  exists w w',
    run T d = Ok tt w /\
    run T (files w) = Ok tt w' /\
    files w' !! icns = files w !! icns /\
    artifact w' = artifact w.
Proof.
  intros HT (Hnone & Hfiles)%clean_start_inv.
  assert (Htidy : tidy d = true).
  { apply tidy_intro; [now rewrite Hnone|]. intros q Hq.
    destruct (Hfiles q Hq) as [-> ->]. now split. }
  destruct (run_determined T d ∅ HT (or_introl (conj Hnone eq_refl)) Htidy
              (fun q Hq => proj1 (Hfiles q Hq)))
    as (w & Hrun & Hicns & Hstaging & Htidy1 & Hnotmp1).
  assert (Hagain : exists w', run T (files w) = Ok tt w' /\
            files w' !! icns = bundled T (files w !! icns) (stage T sizes ∅)).
  { destruct Hstaging as [Hgone | Hkept].
    - destruct (run_determined T (files w) ∅ HT (or_introl (conj Hgone eq_refl))
                  Htidy1 Hnotmp1) as (w' & Hrun' & Hicns' & _).
      exists w'. split; assumption.
    - destruct (run_determined T (files w) _ HT (or_intror Hkept)
                  Htidy1 Hnotmp1) as (w' & Hrun' & Hicns' & _).
      exists w'. split; [exact Hrun'|].
      now rewrite Hicns', stage_again. }
  destruct Hagain as (w' & Hrun' & Hicns').
  assert (Hsame : files w' !! icns = files w !! icns)
    by now rewrite Hicns', Hicns, bundled_again.
  exists w, w'. split; [exact Hrun|]. split; [exact Hrun'|].
  split; [exact Hsame|]. unfold artifact. now rewrite Hsame.
Qed.

Lemma all_tools_determined : input_determined all_tools.
Proof.
  split; [|split]; intros; cbn [all_tools sips_only qlmanage sips iconutil];
    now match goal with H : _ = _ |- _ => rewrite H end.
Qed.

Lemma sips_only_determined : input_determined sips_only.
Proof.
  split; [|split]; intros; cbn [sips_only qlmanage sips iconutil];
    try reflexivity; now match goal with H : _ = _ |- _ => rewrite H end.
Qed.

Lemma rerun_same_artifact_witness :
  exists w w',
    run all_tools ∅ = Ok tt w /\
    run all_tools (files w) = Ok tt w' /\
    artifact w' = artifact w /\
    present (artifact w) = true.
Proof.
  assert (Hclean : clean_start ∅ = true) by (vm_compute; reflexivity).
  destruct (rerun_same_artifact all_tools ∅ all_tools_determined Hclean)
    as (w & w' & Hrun & Hrun' & _ & Hsame).
  exists w, w'. split; [exact Hrun|]. split; [exact Hrun'|].
  split; [exact Hsame|].
  unfold run in Hrun. vm_compute in Hrun. injection Hrun as <-. reflexivity.
Defined.

(** C5, refuted as stated, twice over.  In both cases the programmes are
    functions of their inputs and both runs complete with an artifact.
    A thumbnail left in the working directory goes into the first bundle
    and not into the second; so does a bitmap left in a staging directory
    that was already there (the script makes the directory with
    [exist_ok=True] and deletes it only after a successful bundling). *)
Lemma rerun_changes_artifact :
  (input_determined sips_only /\
   exit_status (run sips_only
                  {[ "temp_16.svg.png"%string := Fs.File "left behind" ]}) = 0 /\
   exit_status (run sips_only
                  (files (final (run sips_only
                     {[ "temp_16.svg.png"%string := Fs.File "left behind" ]})))) = 0 /\
   present (artifact (final (run sips_only
                  {[ "temp_16.svg.png"%string := Fs.File "left behind" ]}))) = true /\
   artifact (final (run sips_only
               (files (final (run sips_only
                  {[ "temp_16.svg.png"%string := Fs.File "left behind" ]})))))
   <> artifact (final (run sips_only
                  {[ "temp_16.svg.png"%string := Fs.File "left behind" ]}))) /\
  (input_determined all_tools /\
   exit_status (run all_tools
                  {[ iconset := Fs.Dir {[ "icon_64x64.png"%string
                                            := Fs.File "older bitmap" ]} ]}) = 0 /\
   exit_status (run all_tools
                  (files (final (run all_tools
                     {[ iconset := Fs.Dir {[ "icon_64x64.png"%string
                                               := Fs.File "older bitmap" ]} ]})))) = 0 /\
   present (artifact (final (run all_tools
                  {[ iconset := Fs.Dir {[ "icon_64x64.png"%string
                                            := Fs.File "older bitmap" ]} ]}))) = true /\
   artifact (final (run all_tools
               (files (final (run all_tools
                  {[ iconset := Fs.Dir {[ "icon_64x64.png"%string
                                            := Fs.File "older bitmap" ]} ]})))))
   <> artifact (final (run all_tools
                  {[ iconset := Fs.Dir {[ "icon_64x64.png"%string
                                            := Fs.File "older bitmap" ]} ]}))).
Proof.
  split.
  - split; [apply sips_only_determined|].
    split; [vm_compute; reflexivity|].
    split; [vm_compute; reflexivity|].
    split; [vm_compute; reflexivity|].
    intros H. vm_compute in H. discriminate H.
  - split; [apply all_tools_determined|].
    split; [vm_compute; reflexivity|].
    split; [vm_compute; reflexivity|].
    split; [vm_compute; reflexivity|].
    intros H. vm_compute in H. discriminate H.
Qed.

(** * Further properties of the script *)

(** ** What a run leaves alone, and what it cleans up *)

Lemma own_path_false k :
  own_path k = false ->
  k <> iconset /\ k <> icns /\
  forall p, In p sizes -> k <> svg_path p.1 /\ k <> temp_png p.1.
Proof.
  unfold own_path. intros H.
  apply orb_false_iff in H as [H Hrest].
  apply orb_false_iff in H as [H1 H2].
  split; [now apply String.eqb_neq|]. split; [now apply String.eqb_neq|].
  intros p Hp.
  assert (Hp' : (String.eqb k (svg_path p.1) || String.eqb k (temp_png p.1)) = false).
  { destruct (String.eqb k (svg_path p.1) || String.eqb k (temp_png p.1)) eqn:E;
      [|reflexivity].
    rewrite <- Hrest. symmetry. apply existsb_exists. exists p. now split. }
  apply orb_false_iff in Hp' as [H3 H4].
  split; now apply String.eqb_neq.
Qed.

(** However an iteration ends, it touches only its two temporary paths
    and the staging directory. *)
Lemma process_one_final_other T p w k :
  pair_names p ->
  k <> svg_path p.1 -> k <> temp_png p.1 -> k <> iconset ->
  files (final (process_one T p w)) !! k = files w !! k.
Proof.
  intros Hp Hk1 Hk2 Hk3.
  destruct (process_one T p w) as [[] w'|e w'] eqn:Hrun; cbn [final].
  - now apply (process_one_other T p Hp _ _ _ Hrun).
  - destruct (attempt T p w) as [found w1|e1 w1] eqn:Hat.
    + pose proof (attempt_other T p Hp _ _ _ _ Hat Hk1 Hk2) as Hsame.
      destruct found.
      * rewrite (process_one_found T p Hp _ _ Hat) in Hrun.
        destruct (Fs.rename _ _ _); [|discriminate Hrun].
        assert (w' = w1) as -> by congruence. exact Hsame.
      * rewrite (process_one_fallback T p Hp _ _ Hat) in Hrun.
        discriminate Hrun.
    + rewrite process_one_attempt, Hat in Hrun.
      destruct (names_content _ Hp) as [doc Hdoc].
      rewrite (attempt_eq T p Hp w doc Hdoc) in Hat.
      destruct (is_dir _); [|discriminate Hat].
      assert (w' = w) as -> by congruence. reflexivity.
Qed.

(** An invariant kept by every iteration, however it ends, holds where
    the loop stops. *)
Lemma for_each_final_invariant T (I : world -> Prop) l :
  (forall p w, In p l -> I w -> I (final (process_one T p w))) ->
  forall w, I w -> I (final (for_each l (process_one T) w)).
Proof.
  induction l as [|p l IH]; intros Hstep w Hw; [exact Hw|].
  rewrite for_each_cons.
  pose proof (Hstep p w (or_introl eq_refl) Hw) as Hw1.
  destruct (process_one T p w) as [[] w1|e w1]; [|exact Hw1].
  apply IH; [|exact Hw1]. intros q v Hq. apply Hstep. now right.
Qed.

Lemma prepare_final_other w k :
  k <> iconset -> files (final (prepare w)) !! k = files w !! k.
Proof.
  intros Hk. rewrite prepare_eq.
  destruct (files w !! iconset) as [[]|]; cbn [final files]; try reflexivity.
  now rewrite lookup_insert_ne.
Qed.

Lemma bundle_final_other T w k :
  k <> icns -> k <> iconset ->
  files (final (bundle T w)) !! k = files w !! k.
Proof.
  intros Hk1 Hk2. destruct (bundle_completes T w) as [w' Hw'].
  rewrite Hw'. cbn [final]. now apply (bundle_other T w w').
Qed.

(** X1: whether the run completes or stops at an exception, everything in
    the working directory that is not one of the script's own paths (the
    staging directory, the artifact, the temporary files of the
    configured sizes) is exactly as it was. *)
Theorem run_leaves_other_files (T : tools) (d : gmap string Fs.node)
    (k : string) :
  own_path k = false ->
  files (final (run T d)) !! k = d !! k.
Proof.
  intros (Hk1 & Hk2 & Hk3)%own_path_false.
  unfold run. rewrite main_generate.
  assert (Hgen : files (final (generate T (World d []))) !! k = d !! k).
  { rewrite generate_eq.
    pose proof (prepare_final_other (World d []) k Hk1) as Hprep.
    destruct (prepare (World d [])) as [[] w0|e w0]; [|exact Hprep].
    cbn [final files] in Hprep. rewrite <- Hprep.
    apply (for_each_final_invariant T
             (fun w => files w !! k = files w0 !! k) sizes); [|reflexivity].
    intros p w Hin Hsame. rewrite <- Hsame.
    destruct (Hk3 p Hin) as [Hs Ht].
    now apply process_one_final_other; [apply sizes_names| | |]. }
  destruct (generate T (World d [])) as [[] w1|e w1]; [|exact Hgen].
  cbn [final] in Hgen. rewrite <- Hgen. now apply bundle_final_other.
Qed.

Lemma run_leaves_other_files_witness :
  files (final (run all_tools {[ "notes.txt"%string := Fs.File "keep" ]}))
    !! "notes.txt"%string
  = Some (Fs.File "keep").
Proof.
  rewrite (run_leaves_other_files all_tools
             {[ "notes.txt"%string := Fs.File "keep" ]} "notes.txt"%string).
  - apply lookup_singleton_eq.
  - vm_compute. reflexivity.
Defined.




(** ** Where the script stops *)

(** X3: when [Aranet4.iconset] exists and is a regular file the script
    stops at its first call with [FileExistsError]: nothing is printed,
    nothing is spawned, the working directory is as it was, and the exit
    status is 1. *)
Theorem iconset_file_stops_the_script (T : tools) (d : gmap string Fs.node) :
  is_file (d !! iconset) = true ->
  run T d = Raised Py.FileExistsError (World d []) /\
  exit_status (run T d) = 1.
Proof.
  intros Hfile.
  assert (Hrun : run T d = Raised Py.FileExistsError (World d [])).
  { unfold run. rewrite main_generate, generate_eq, prepare_eq. cbn [files].
    destruct (d !! iconset) as [[x|sub]|]; try discriminate Hfile.
    reflexivity. }
  split; [exact Hrun|]. now rewrite Hrun.
Qed.

Lemma iconset_file_stops_the_script_witness :
  run all_tools {[ iconset := Fs.File "not a directory" ]}
  = Raised Py.FileExistsError (World {[ iconset := Fs.File "not a directory" ]} []).
Proof.
  apply (iconset_file_stops_the_script all_tools
           {[ iconset := Fs.File "not a directory" ]}).
  vm_compute. reflexivity.
Defined.

Lemma process_one_svg_is_dir T p w :
  pair_names p ->
  is_dir (files w !! svg_path p.1) = true ->
  process_one T p w = Raised Py.IsADirectoryError w.
Proof.
  intros Hp Hdir. destruct (names_content _ Hp) as [doc Hdoc].
  now rewrite process_one_attempt, (attempt_eq T p Hp w doc Hdoc), Hdir.
Qed.

(** X4: when a directory sits at [temp_<size>.svg] as the iteration of a
    pair starts, the script stops there with [IsADirectoryError] from
    [open]: nothing is spawned for this pair or any later one, [iconutil]
    is never reached, and what the earlier iterations staged stays. *)
Theorem svg_directory_stops_the_script (T : tools) (d : gmap string Fs.node)
    (pre post : list (Z * string)) (p : Z * string) (wp : world) :
  sizes = pre ++ p :: post ->
  before T pre (World d []) = Ok tt wp ->
  is_dir (files wp !! svg_path p.1) = true ->
  run T d = Raised Py.IsADirectoryError wp.
Proof.
  intros Hsplit Hbefore Hdir.
  assert (Hin : In p sizes)
    by (rewrite Hsplit; apply in_or_app; right; now left).
  rewrite (run_from T d pre p post wp Hsplit Hbefore).
  now rewrite (process_one_svg_is_dir T p wp (sizes_names p Hin) Hdir).
Qed.

Lemma svg_directory_stops_the_script_witness :
  run all_tools {[ "temp_32.svg"%string := Fs.Dir ∅ ]}
  = Raised Py.IsADirectoryError
      (World {[ "temp_32.svg"%string := Fs.Dir ∅;
                iconset := Fs.Dir {[ "icon_16x16.png"%string :=
                  Fs.File ("thumbnail 16 of " +:+
                    match svg_content 16 with inr doc => doc | inl _ => "" end) ]} ]}
         [Printed msg_creating;
          Spawned (Qlmanage 16 "temp_16.svg"); Printed (created "icon_16x16.png")]).
Proof.
  apply (svg_directory_stops_the_script all_tools
           {[ "temp_32.svg"%string := Fs.Dir ∅ ]}
           [(16, "icon_16x16.png"%string)] (skipn 2 sizes)
           (32, "icon_16x16@2x.png"%string)).
  - reflexivity.
  - vm_compute. reflexivity.
  - vm_compute. reflexivity.
Defined.

(** X5: when [qlmanage] left a thumbnail but a directory has the bitmap's
    name in the staging directory, [os.rename] raises
    [IsADirectoryError]; the clean-up of line 64 is not reached, so the
    temporary vector file and the thumbnail both stay in the working
    directory, nothing is printed for the pair, and the loop is over. *)
Theorem blocked_rename_leaves_temporaries (T : tools) (p : Z * string)
    (w w1 : world) (sub : gmap string Fs.node) :
  In p sizes ->
  attempt T p w = Ok true w1 ->
  is_dir (files w !! temp_png p.1) = false ->
  files w !! iconset = Some (Fs.Dir sub) ->
  is_dir (sub !! p.2) = true ->
  process_one T p w = Raised Py.IsADirectoryError w1 /\
  exists_at (svg_path p.1) w1 = true /\
  exists_at (temp_png p.1) w1 = true /\
  trace w1 = trace w ++ [Spawned (Qlmanage p.1 (svg_path p.1))] /\
  forall rest,
    for_each (p :: rest) (process_one T) w = Raised Py.IsADirectoryError w1.
Proof.
  intros Hin Hat Htmp Hsub Hentry. pose proof (sizes_names p Hin) as Hp.
  destruct (attempt_Ok_inv T p Hp _ _ _ Hat)
    as (doc & _ & _ & _ & Htrace & Hfound & Hsvg).
  pose proof (attempt_keeps_tmp T p Hp _ _ _ Hat Htmp) as Hkind.
  destruct (is_dir_present_file _ (eq_sym Hfound) Hkind) as [data Hdata].
  assert (Hsame : files w1 !! iconset = Some (Fs.Dir sub)).
  { rewrite <- Hsub.
    apply (attempt_other T p Hp _ _ _ _ Hat); apply not_eq_sym;
      [apply svg_path_not_iconset | apply temp_png_not_iconset]. }
  assert (Hrun : process_one T p w = Raised Py.IsADirectoryError w1).
  { rewrite (process_one_found T p Hp _ _ Hat).
    unfold Fs.rename. rewrite find_top, find_in, Hdata, Hsame.
    destruct (sub !! p.2) as [[x|sub']|]; try discriminate Hentry.
    reflexivity. }
  split; [exact Hrun|].
  rewrite !exists_at_top
    by first [apply (names_svg _ Hp) | apply (names_tmp _ Hp)].
  rewrite Hsvg, Hdata. split; [reflexivity|]. split; [reflexivity|].
  split; [exact Htrace|].
  intros rest. now rewrite for_each_cons, Hrun.
Qed.

Lemma blocked_rename_leaves_temporaries_witness :
  exists w1,
    process_one all_tools (16, "icon_16x16.png"%string)
      (World {[ iconset := Fs.Dir {[ "icon_16x16.png"%string := Fs.Dir ∅ ]} ]} [])
    = Raised Py.IsADirectoryError w1 /\
    exists_at "temp_16.svg" w1 = true /\
    exists_at "temp_16.svg.png" w1 = true.
Proof.
  exists (final (attempt all_tools (16, "icon_16x16.png"%string)
                   (World {[ iconset := Fs.Dir {[ "icon_16x16.png"%string
                                                    := Fs.Dir ∅ ]} ]} []))).
  destruct (blocked_rename_leaves_temporaries all_tools
              (16, "icon_16x16.png"%string)
              (World {[ iconset := Fs.Dir {[ "icon_16x16.png"%string
                                               := Fs.Dir ∅ ]} ]} [])
              (final (attempt all_tools (16, "icon_16x16.png"%string)
                        (World {[ iconset := Fs.Dir {[ "icon_16x16.png"%string
                                                         := Fs.Dir ∅ ]} ]} [])))
              {[ "icon_16x16.png"%string := Fs.Dir ∅ ]})
    as (Hrun & Hsvg & Htmp & _).
  - now left.
  - vm_compute. reflexivity.
  - vm_compute. reflexivity.
  - vm_compute. reflexivity.
  - vm_compute. reflexivity.
  - split; [exact Hrun|]. split; [exact Hsvg|exact Htmp].
Defined.

(** ** What a completed run prints and spawns *)

Lemma for_each_events T l w w' :
  (forall q, In q l -> In q sizes) ->
  for_each l (process_one T) w = Ok tt w' ->
  exists founds : list bool,
    length founds = length l /\
    trace w' = trace w ++ concat (zip_with iteration_events l founds).
Proof.
  revert w. induction l as [|p l IH]; intros w Hl Hrun.
  - injection Hrun as <-. exists []. split; [reflexivity|].
    cbn [zip_with concat]. now rewrite app_nil_r.
  - rewrite for_each_cons in Hrun.
    destruct (process_one T p w) as [[] w1|] eqn:Hstep; [|discriminate Hrun].
    destruct (process_one_trace T p (sizes_names p (Hl p (or_introl eq_refl)))
                _ _ Hstep) as (found & w0 & _ & Htrace).
    destruct (IH w1 (fun q Hq => Hl q (or_intror Hq)) Hrun)
      as (founds & Hlen & Hrest).
    exists (found :: founds). split; [cbn [length]; now rewrite Hlen|].
    rewrite Hrest, Htrace. cbn [zip_with concat].
    unfold iteration_events at 2. now rewrite <- !app_assoc.
Qed.

(** X6: the events of a completed run, in order: the opening line; for
    each configured pair, in the order of the list, one [qlmanage]
    followed by either the pair's [Created] line or the pair's [sips];
    the converting line and one [iconutil]; then the success line and
    [rm -rf] when the artifact exists, the failure line when it does
    not. *)
Theorem completed_run_events (T : tools) (d : gmap string Fs.node) (w : world) :
  run T d = Ok tt w ->
  exists founds : list bool,
    length founds = length sizes /\
    trace w
    = [Printed msg_creating]
      ++ concat (zip_with iteration_events sizes founds)
      ++ closing_events (exists_at icns w).
Proof.
  intros (w1 & Hgen & Hbundle)%run_Ok_inv.
  destruct (generate_Ok_inv T d w1 Hgen) as (w0 & Hprep & Hloop).
  destruct (for_each_events T sizes w0 w1 (fun q Hq => Hq) Hloop)
    as (founds & Hlen & Htrace).
  exists founds. split; [exact Hlen|].
  assert (H0 : trace w0 = [Printed msg_creating]).
  { rewrite prepare_eq in Hprep. cbn [files trace] in Hprep.
    destruct (d !! iconset) as [[]|]; [discriminate Hprep| |];
      injection Hprep as <-; reflexivity. }
  rewrite exists_at_top by reflexivity.
  destruct (bundle_outcome T w1 w Hbundle)
    as [_ [(-> & _ & ->) | (-> & _ & ->)]];
    rewrite Htrace, H0; unfold closing_events; cbn [app];
    now rewrite <- ?app_assoc.
Qed.

Lemma completed_run_events_witness :
  exists founds : list bool,
    length founds = 10%nat /\
    trace (final (run sips_only ∅))
    = [Printed msg_creating]
      ++ concat (zip_with iteration_events sizes founds)
      ++ closing_events true.
Proof.
  destruct (completed_run_events sips_only ∅ (final (run sips_only ∅)))
    as (founds & Hlen & Htrace).
  - vm_compute. reflexivity.
  - exists founds. split; [exact Hlen|]. rewrite Htrace.
    do 2 f_equal.
Defined.

(** ** The scale factors beyond the configured sizes *)

Lemma scales_exactly_upto_4096 :
  forallb scales_exactly (map Z.of_nat (seq 0 (Z.to_nat 4097))) = true.
Proof. vm_compute. reflexivity. Qed.

(** X7: for every pixel size from 0 to 4096, not only the configured
    ones, the binary64 computation [int(size * 0.225)] and
    [int(size * 0.65)] gives the exactly truncated products: rounding
    never moves a result across an integer. *)
Theorem scale_factors_exact_upto_4096 (size : Z) :
  0 <= size <= 4096 ->
  radius size = inr (radius_spec size) /\
  fontsize size = inr (fontsize_spec size).
Proof.
  intros Hrange.
  pose proof scales_exactly_upto_4096 as Hall.
  rewrite forallb_forall in Hall.
  assert (Hin : In size (map Z.of_nat (seq 0 (Z.to_nat 4097)))).
  { rewrite <- (Z2Nat.id size) by lia. apply in_map, in_seq. lia. }
  specialize (Hall size Hin). unfold scales_exactly in Hall.
  destruct (radius size) as [|r]; [discriminate Hall|].
  destruct (fontsize size) as [|f]; [discriminate Hall|].
  apply andb_true_iff in Hall as [Hr Hf].
  apply Z.eqb_eq in Hr, Hf. now subst.
Qed.

Lemma scale_factors_exact_upto_4096_witness :
  radius 40 = inr 9 /\ fontsize 40 = inr 26.
Proof.
  apply (scale_factors_exact_upto_4096 40). lia.
Defined.

(** ** What [svg_content] can raise *)

Lemma float_of_int_raises n e :
  Py.float_of_int n = inl e -> e = Py.OverflowError.
Proof.
  unfold Py.float_of_int.
  destruct (binary_normalize _ _ _ _ _); intros H; congruence.
Qed.

Lemma int_of_float_raises x e :
  Py.int_of_float x = inl e -> e = Py.OverflowError \/ e = Py.ValueError.
Proof.
  unfold Py.int_of_float.
  destruct (Prim2SF x); intros H; try discriminate H;
    injection H as <-; auto.
Qed.

Lemma int_mul_raises n c e :
  Py.int_mul n c = inl e -> e = Py.OverflowError \/ e = Py.ValueError.
Proof.
  unfold Py.int_mul. destruct (Py.float_of_int n) as [e'|x] eqn:Hx.
  - intros [= <-]. left. apply (float_of_int_raises n e' Hx).
  - apply int_of_float_raises.
Qed.

(** X8: the template names no field that the script does not pass:
    whatever the size, formatting never raises [KeyError].  The only
    exceptions [svg_content] can raise are those of the conversion
    between [int] and [float] ([OverflowError], [ValueError]), and when
    both products convert it returns a document. *)
Theorem svg_content_raises_only_conversion_errors (size : Z) :
  (forall e, svg_content size = inl e ->
     e = Py.OverflowError \/ e = Py.ValueError) /\
  (forall r f, radius size = inr r -> fontsize size = inr f ->
     exists doc, svg_content size = inr doc /\
       String.prefix (dq "<?xml version='1.0' encoding='UTF-8'?>") doc = true).
Proof.
  split.
  - intros e. unfold svg_content.
    destruct (radius size) as [e1|r] eqn:Hr.
    { intros [= <-]. apply (int_mul_raises _ _ _ Hr). }
    destruct (fontsize size) as [e2|f] eqn:Hf.
    { intros [= <-]. apply (int_mul_raises _ _ _ Hf). }
    cbn. discriminate.
  - intros r f Hr Hf. unfold svg_content. rewrite Hr, Hf.
    eexists. split; [cbn; reflexivity|]. reflexivity.
Qed.

Lemma svg_content_raises_only_conversion_errors_witness :
  (exists e, svg_content (2 ^ 1024) = inl e /\
     (e = Py.OverflowError \/ e = Py.ValueError)) /\
  exists doc, svg_content 48 = inr doc.
Proof.
  destruct (svg_content_raises_only_conversion_errors (2 ^ 1024)) as [Hraise _].
  destruct (svg_content_raises_only_conversion_errors 48) as [_ Hdoc].
  split.
  - destruct (svg_content (2 ^ 1024)) as [e|doc] eqn:Hc.
    + exists e. split; [reflexivity|]. apply Hraise. reflexivity.
    + vm_compute in Hc. discriminate Hc.
  - destruct (Hdoc 10 31) as (doc & Hdoc' & _);
      [vm_compute; reflexivity | vm_compute; reflexivity |].
    exists doc. exact Hdoc'.
Defined.

(** ** Running the script again *)

Lemma run_keeps_tidy T d :
  tidy d = true -> exists w, run T d = Ok tt w /\ tidy (files w) = true.
Proof.
  intros Htidy.
  destruct (generate_completes T d Htidy) as (w1 & Hgen & Hset1).
  set (d1 := exec T (Iconutil iconset icns) (files w1)).
  assert (Hd1 : forall k, k <> icns -> d1 !! k = files w1 !! k)
    by (intros k Hk; apply exec_iconutil_other, Hk).
  assert (Hfiles1 : forall q, In q sizes ->
            is_dir (d1 !! svg_path q.1) = false /\
            is_dir (d1 !! temp_png q.1) = false).
  { intros q Hq. rewrite !Hd1
      by first [apply svg_path_not_icns | apply temp_png_not_icns].
    apply Hset1, Hq. }
  unfold run. rewrite main_generate, Hgen, bundle_eq. cbv zeta. fold d1.
  destruct (present (d1 !! icns)); eexists; (split; [reflexivity|]);
    cbn [files]; apply tidy_intro.
  - now rewrite lookup_delete_eq.
  - intros q Hq. rewrite !lookup_delete_ne
      by first [apply not_eq_sym, svg_path_not_iconset
               | apply not_eq_sym, temp_png_not_iconset].
    apply Hfiles1, Hq.
  - rewrite Hd1 by apply iconset_not_icns.
    destruct Hset1 as [(sub & -> & Hentries) _]. exact Hentries.
  - exact Hfiles1.
Qed.

(** X9: a run from a tidy working directory leaves a tidy working
    directory, so the script can be run again and again: each of the runs
    reaches its last line and exits with status 0, whatever the
    programmes did in the runs before (a staging directory left by a
    failed bundling is reused, not tripped over). *)
Theorem rerun_completes (T : tools) (d : gmap string Fs.node) (n : nat) :
  tidy d = true ->
  tidy (rerun T n d) = true /\
  exit_status (run T (rerun T n d)) = 0.
Proof.
  intros Htidy.
  assert (Hn : tidy (rerun T n d) = true).
  { induction n as [|n IH]; [exact Htidy|]. cbn [rerun].
    destruct (run_keeps_tidy T _ IH) as (w & Hrun & Hw). now rewrite Hrun. }
  split; [exact Hn|].
  destruct (run_keeps_tidy T _ Hn) as (w & Hrun & _). now rewrite Hrun.
Qed.

Lemma rerun_completes_witness :
  exit_status (run no_tools (rerun no_tools 3 ∅)) = 0 /\
  exists_at iconset (World (rerun no_tools 3 ∅) []) = true.
Proof.
  assert (Htidy : tidy ∅ = true) by (vm_compute; reflexivity).
  destruct (rerun_completes no_tools ∅ 3 Htidy) as [_ Hexit].
  split; [exact Hexit|]. vm_compute. reflexivity.
Defined.

(** ** The staging directory with deterministic programmes *)

Lemma stage_one_lookup T q sub f :
  stage_one T q sub !! f
  = if decide (q.2 = f)
    then match bitmap_of T q with Some n => Some n | None => sub !! f end
    else sub !! f.
Proof.
  unfold stage_one. destruct (bitmap_of T q) as [n|].
  - rewrite lookup_insert. destruct (decide (q.2 = f)); reflexivity.
  - destruct (decide (q.2 = f)); reflexivity.
Qed.

Lemma stage_lookup_other T l sub f :
  ~ In f (map snd l) -> stage T l sub !! f = sub !! f.
Proof.
  revert sub. induction l as [|q l IH]; intros sub Hf; [reflexivity|].
  cbn [stage]. cbn [map] in Hf.
  rewrite IH by (intros H; apply Hf; now right).
  rewrite stage_one_lookup.
  destruct (decide (q.2 = f)) as [Heq|]; [|reflexivity].
  exfalso. apply Hf. now left.
Qed.

Lemma stage_lookup T l sub p :
  List.NoDup (map snd l) -> In p l ->
  stage T l sub !! p.2
  = match bitmap_of T p with Some n => Some n | None => sub !! p.2 end.
Proof.
  revert sub. induction l as [|q l IH]; intros sub Hnd Hin; [destruct Hin|].
  cbn [map] in Hnd. apply NoDup_cons_iff in Hnd as [Hq Hnd].
  cbn [stage]. destruct Hin as [->|Hin].
  - rewrite stage_lookup_other by exact Hq.
    rewrite stage_one_lookup. destruct (decide (p.2 = p.2)); [reflexivity|done].
  - rewrite (IH _ Hnd Hin), stage_one_lookup.
    destruct (decide (q.2 = p.2)) as [Heq|]; [|reflexivity].
    exfalso. apply Hq. rewrite Heq. now apply in_map.
Qed.

(** X10: with programmes that are functions of their inputs, from a tidy
    working directory without waiting thumbnails, the staging directory
    that [iconutil] is given is known entry by entry: under a configured
    filename, the bitmap made for that pair ([qlmanage]'s thumbnail of
    the pair's document, else what [sips] wrote), and when neither
    programme produced one, whatever was staged under that name before
    the run; under any other name, what was there before. *)
Theorem staging_for_iconutil (T : tools) (d : gmap string Fs.node) :
  input_determined T ->
  tidy d = true ->
  (forall q, In q sizes -> d !! temp_png q.1 = None) ->
  exists w1 sub,
    generate T (World d []) = Ok tt w1 /\
    files w1 !! iconset = Some (Fs.Dir sub) /\
    (forall p, In p sizes ->
       sub !! p.2 = match bitmap_of T p with
                    | Some n => Some n
                    | None => staged_before d !! p.2
                    end) /\
    (forall f, ~ In f (map snd sizes) -> sub !! f = staged_before d !! f).
Proof.
  intros HT Htidy Hnotmp.
  destruct (tidy_prepare d [] Htidy) as (w0 & Hprep & Hset0 & _ & Hother0).
  assert (Hstaging0 : files w0 !! iconset = Some (Fs.Dir (staged_before d))).
  { rewrite prepare_eq in Hprep. cbn [files trace] in Hprep.
    unfold staged_before.
    destruct (d !! iconset) as [[x|sub0]|] eqn:Hd; [discriminate Hprep| |].
    - assert (w0 = World d ([] ++ [Printed msg_creating])) as -> by congruence.
      exact Hd.
    - assert (w0 = World (<[iconset := Fs.Dir ∅]> d) ([] ++ [Printed msg_creating]))
        as -> by congruence.
      apply lookup_insert_eq. }
  assert (Hready0 : ready (files w0)).
  { split; [exact Hset0|]. intros q Hq.
    rewrite Hother0 by apply temp_png_not_iconset. apply Hnotmp, Hq. }
  destruct (ready_loop T HT sizes w0 _ (fun q Hq => Hq) Hready0 Hstaging0)
    as (w1 & Hloop & _ & Hstaging1).
  exists w1, (stage T sizes (staged_before d)).
  split; [now rewrite generate_eq, Hprep|]. split; [exact Hstaging1|]. split.
  - intros p Hin. apply stage_lookup; [apply filenames_distinct|exact Hin].
  - intros f Hf. now apply stage_lookup_other.
Qed.

Lemma staging_for_iconutil_witness :
  exists w1 sub,
    generate sips_only (World ∅ []) = Ok tt w1 /\
    files w1 !! iconset = Some (Fs.Dir sub) /\
    sub !! "icon_32x32.png"%string
    = bitmap_of sips_only (32, "icon_32x32.png"%string) /\
    sub !! "icon_64x64.png"%string = None.
Proof.
  assert (Htidy : tidy ∅ = true) by (vm_compute; reflexivity).
  destruct (staging_for_iconutil sips_only ∅ sips_only_determined Htidy)
    as (w1 & sub & Hgen & Hstaging & Hpairs & Hothers).
  - intros q _. apply lookup_empty.
  - exists w1, sub. split; [exact Hgen|]. split; [exact Hstaging|]. split.
    + pose proof (Hpairs (32, "icon_32x32.png"%string)) as H32.
      cbn [snd] in H32. rewrite H32 by (simpl; auto).
      vm_compute. reflexivity.
    + rewrite Hothers; [reflexivity|].
      simpl. intros H. repeat (destruct H as [H|H]; [discriminate H|]).
      destruct H.
Defined.

(** ** The artifact after the run *)

Lemma bundle_icns T w1 w :
  bundle T w1 = Ok tt w ->
  files w !! icns = exec T (Iconutil iconset icns) (files w1) !! icns.
Proof.
  rewrite bundle_eq. cbv zeta.
  destruct (present _); intros Heq.
  - assert (w = World (delete iconset (exec T (Iconutil iconset icns) (files w1)))
               (trace w1 ++ [Printed msg_converting; Spawned (Iconutil iconset icns);
                             Printed msg_success; Spawned (RmRf iconset)]))
      as -> by congruence.
    cbn [files]. apply lookup_delete_ne, iconset_not_icns.
  - assert (w = World (exec T (Iconutil iconset icns) (files w1))
               (trace w1 ++ [Printed msg_converting; Spawned (Iconutil iconset icns);
                             Printed msg_failure]))
      as -> by congruence.
    reflexivity.
Qed.

(** X11: the final test cannot tell a new artifact from an old one.  When
    [Aranet4.icns] is there before the run, every completed run prints
    the success line and removes the staging directory with whatever was
    staged; and when [iconutil] wrote nothing, the artifact reported as
    created is the old one, untouched. *)
Theorem old_artifact_counts_as_success (T : tools) (d : gmap string Fs.node)
    (w : world) :
  run T d = Ok tt w ->
  present (d !! icns) = true ->
  In (Printed msg_success) (trace w) /\
  last (trace w) = Some (Spawned (RmRf iconset)) /\
  exists_at iconset w = false /\
  exists w1,
    generate T (World d []) = Ok tt w1 /\
    (iconutil T iconset icns (files w1) = None ->
       files w !! icns = d !! icns).
Proof.
  intros (w1 & Hgen & Hbundle)%run_Ok_inv Hold.
  pose proof (generate_icns T d w1 Hgen) as Hicns1.
  rewrite exists_at_top by reflexivity.
  destruct (bundle_outcome T w1 w Hbundle)
    as [Hic [(_ & Hgone & Htrace) | (Hno & _)]].
  - rewrite Htrace, Hgone.
    split; [apply in_or_app; right; simpl; auto|].
    split; [now rewrite last_app|]. split; [reflexivity|].
    exists w1. split; [exact Hgen|]. intros Hnone.
    now rewrite (bundle_icns T w1 w Hbundle), exec_iconutil, Hnone.
  - rewrite Hic, Hicns1, Hold in Hno. discriminate Hno.
Qed.

Lemma old_artifact_counts_as_success_witness :
  In (Printed msg_success)
     (trace (final (run no_tools {[ icns := Fs.File "old" ]}))) /\
  artifact (final (run no_tools {[ icns := Fs.File "old" ]})) = Some "old"%string.
Proof.
  destruct (old_artifact_counts_as_success no_tools {[ icns := Fs.File "old" ]}
              (final (run no_tools {[ icns := Fs.File "old" ]})))
    as (Hprinted & _).
  - vm_compute. reflexivity.
  - vm_compute. reflexivity.
  - split; [exact Hprinted|]. vm_compute. reflexivity.
Defined.

(** X12: when [iconutil] produces a bundle and no directory sits at
    [Aranet4.icns], the artifact after a completed run holds exactly the
    bytes [iconutil] produced, whatever was there before; the success
    line is printed and the staging directory is gone. *)
Theorem new_artifact_replaces_old (T : tools) (d : gmap string Fs.node)
    (w1 w : world) (data : string) :
  generate T (World d []) = Ok tt w1 ->
  run T d = Ok tt w ->
  iconutil T iconset icns (files w1) = Some data ->
  is_dir (d !! icns) = false ->
  artifact w = Some data /\
  In (Printed msg_success) (trace w) /\
  exists_at iconset w = false.
Proof.
  intros Hgen (w1' & Hgen' & Hbundle)%run_Ok_inv Hdata Hkind.
  assert (w1' = w1) as -> by congruence.
  pose proof (generate_icns T d w1 Hgen) as Hicns1.
  assert (Hicns : files w !! icns = Some (Fs.File data)).
  { rewrite (bundle_icns T w1 w Hbundle), exec_iconutil, Hdata, Hicns1, Hkind.
    apply lookup_insert_eq. }
  split; [unfold artifact; now rewrite Hicns|].
  rewrite exists_at_top by reflexivity.
  destruct (bundle_outcome T w1 w Hbundle)
    as [_ [(_ & Hgone & Htrace) | (Hno & _)]].
  - rewrite Htrace, Hgone. split; [|reflexivity].
    apply in_or_app. right. simpl. auto.
  - rewrite Hicns in Hno. discriminate Hno.
Qed.

Lemma new_artifact_replaces_old_witness :
  artifact (final (run all_tools {[ icns := Fs.File "old" ]}))
  = Some (pack (stage all_tools sizes ∅)).
Proof.
  apply (new_artifact_replaces_old all_tools {[ icns := Fs.File "old" ]}
           (final (generate all_tools (World {[ icns := Fs.File "old" ]} [])))).
  - vm_compute. reflexivity.
  - vm_compute. reflexivity.
  - vm_compute. reflexivity.
  - vm_compute. reflexivity.
Defined.

(** ** The [Created] line *)

(** X14: the [Created] line is true when it is printed: in an iteration
    whose existence test found the thumbnail and which completes, the
    entry under the pair's filename in the staging directory is the very
    node that was at [temp_<size>.svg.png], replacing what was staged
    under that name before. *)
Theorem created_means_staged (T : tools) (p : Z * string) (w w1 w' : world) :
  In p sizes ->
  attempt T p w = Ok true w1 ->
  process_one T p w = Ok tt w' ->
  In (Printed (created p.2)) (trace w') /\
  exists_at (png_path p.2) w' = true /\
  Fs.find (Fs.resolve (png_path p.2)) (files w') = files w1 !! temp_png p.1.
Proof.
  intros Hin Hat Hrun. pose proof (sizes_names p Hin) as Hp.
  destruct (process_one_Ok_cases T p Hp _ _ Hrun)
    as (found & w1' & Hat' & Hcases).
  rewrite Hat in Hat'.
  assert (found = true) as -> by congruence.
  assert (w1' = w1) as -> by congruence.
  destruct Hcases as [(_ & n & sub & Hn & _ & ->) | (Hno & _)];
    [|discriminate Hno].
  assert (Hfind : Fs.find (Fs.resolve (png_path p.2))
                    (delete (svg_path p.1)
                       (<[iconset := Fs.Dir (<[p.2 := n]> sub)]>
                          (delete (temp_png p.1) (files w1))))
                  = Some n).
  { rewrite (names_png _ Hp), find_in.
    rewrite lookup_delete_ne by apply svg_path_not_iconset.
    rewrite lookup_insert_eq. apply lookup_insert_eq. }
  cbn [trace files]. split; [apply in_or_app; right; now left|].
  unfold exists_at, Fs.exists_. cbn [files]. rewrite Hfind.
  split; [reflexivity|]. now rewrite Hn.
Qed.

Lemma created_means_staged_witness :
  exists w',
    process_one all_tools (16, "icon_16x16.png"%string)
      (World {[ iconset := Fs.Dir {[ "icon_16x16.png"%string := Fs.File "old" ]} ]} [])
    = Ok tt w' /\
    exists_at "Aranet4.iconset/icon_16x16.png" w' = true /\
    In (Printed "Created icon_16x16.png") (trace w').
Proof.
  eexists. split; [vm_compute; reflexivity|].
  destruct (created_means_staged all_tools (16, "icon_16x16.png"%string)
              (World {[ iconset := Fs.Dir {[ "icon_16x16.png"%string
                                               := Fs.File "old" ]} ]} [])
              (final (attempt all_tools (16, "icon_16x16.png"%string)
                        (World {[ iconset := Fs.Dir {[ "icon_16x16.png"%string
                                                         := Fs.File "old" ]} ]} [])))
              (final (process_one all_tools (16, "icon_16x16.png"%string)
                        (World {[ iconset := Fs.Dir {[ "icon_16x16.png"%string
                                                         := Fs.File "old" ]} ]} []))))
    as (Hprinted & Hstaged & _).
  - now left.
  - vm_compute. reflexivity.
  - vm_compute. reflexivity.
  - split; [exact Hstaged|exact Hprinted].
Defined.
